(** * Split_XPN_CorrFiles: the structural parser and the batch writer

    A shallow embedding of [src/Split_File.py] (module [Split_File]) and of
    its simpler sibling [src/split_xpnfile.py] (module [Split_xpnfile]),
    followed by the properties of the two programs.

    Conventions of the embedding:
    - a Python [str] is a [string]; the programs only ever look at the
      leading tag of a line and at the delimiter [|];
    - [List[str]] is [list string], [lines[i]] is [nth_error lines i] and
      an index outside the list raises [IndexError];
    - a raised exception is [Err e]; each [ValueError] message of the
      source has its own constructor of [Error];
    - a [while] loop is a [Fixpoint] on a fuel argument that follows the
      loop body statement by statement; the function that owns the loop
      supplies [S (length lines)] units of fuel, and running out of fuel is
      the distinguished outcome [OutOfFuel], shown further down never to
      happen;
    - the output directory is a log of the files written, in the order of
      the writes; a file holds the lines written to it (the source writes
      each of them followed by a line feed). *)

From Stdlib Require Import String Ascii List ZArith Lia Bool Arith.
From Stdlib Require Import DecimalString DecimalNat.
Import ListNotations.

Open Scope string_scope.
Open Scope list_scope.

(** ** Outcomes *)

Inductive Error : Type :=
| EmptyInput            (* ValueError: Input file is empty. *)
| MalformedHeader       (* ValueError: First line must start with 'JOB|'. *)
| MissingMetadata       (* ValueError: Expected one or more META_* lines after JOB. *)
| ExpectedCorrelation (lineno : nat) (found : string)
                        (* ValueError: Expected 'CLNT_CORR|' at line {i+1}, found: {lines[i]} *)
| UnexpectedLine (lineno : nat) (found : string)
                        (* ValueError: Unexpected line at {i+1}: {lines[i]} ... *)
| IncompleteItem (corr : string) (roles plans : nat)
                        (* ValueError: Incomplete data-item starting with '{item_lines[0]}'
                           (roles={role_count}, plans={plan_count}). *)
| MissingFooter         (* ValueError: Missing FOOTER line. *)
| LastBlockNotFooter    (* ValueError: Last block must be a FOOTER line. *)
| JobLineMalformed      (* ValueError: JOB line malformed (need JOB|<job_code>|...). *)
| MalformedFooter       (* ValueError: FOOTER must be 'FOOTER|<job_code>|<count>'. *)
| FooterJobMismatch (found expected : string)
                        (* ValueError: FOOTER job_code '{job_code}' != JOB '{expected_job_code}'. *)
| FooterCountNotInteger (* ValueError: FOOTER count is not an integer. *)
| InvalidBatchSize      (* ValueError: ITEMS_PER_FILE must be a positive integer. *)
| ExpectedCorrAt (lineno : nat)   (* sibling: Expected CLNT_CORR at line {i+1} *)
| ExpectedRoleAt (lineno : nat)   (* sibling: Expected CLNT_ROLE/CLNT_ROL at line {i+1} *)
| ExpectedPlanAt (lineno : nat)   (* sibling: Expected PLAN at line {i+1} *)
| IndexError            (* IndexError: list index out of range *)
| RangeStepZero         (* ValueError: range() arg 3 must not be zero *)
| OutOfFuel.            (* not a Python outcome: the fuel of a loop ran out *)

Inductive Result (A : Type) : Type :=
| Ok (a : A)
| Err (e : Error).

Arguments Ok {A} a.
Arguments Err {A} e.

Definition bind {A B : Type} (r : Result A) (k : A -> Result B) : Result B :=
  match r with
  | Ok a => k a
  | Err e => Err e
  end.

Notation "'do' x <- r ; k" := (bind r (fun x => k))
  (at level 10, x pattern, r at level 100, k at level 200).

(** A warning printed by [validate_footer]:
    Warning: FOOTER count {orig_count} != actual items {expected_total}. *)
Inductive Warning : Type :=
| FooterCountMismatch (orig_count : Z) (expected_total : nat).

(** ** The Python builtins the programs use *)

Module Py.

(** [s.startswith(p)] *)
Definition startswith (s p : string) : bool := String.prefix p s.

(** [s.split(sep)] for a one-character separator: the fields between the
    occurrences of [sep]; a string without [sep] is its own single field. *)
Fixpoint split (sep : ascii) (s : string) : list string :=
  match s with
  | EmptyString => [EmptyString]
  | String c s' =>
      if Ascii.eqb c sep then EmptyString :: split sep s'
      else match split sep s' with
           | [] => [String c EmptyString]
           | p :: ps => String c p :: ps
           end
  end.

(** [str(n)] of a natural number, as an f-string renders it. *)
Definition str (n : nat) : string := NilEmpty.string_of_uint (Nat.to_uint n).

(** [len(range(lo, hi, step))], as CPython computes it; [None] is the
    ValueError of a zero step. *)
Definition range_len (lo hi step : Z) : option Z :=
  if (0 <? step)%Z then
    Some (if (lo <? hi)%Z then ((hi - lo - 1) / step + 1)%Z else 0%Z)
  else if (step <? 0)%Z then
    Some (if (hi <? lo)%Z then ((lo - hi - 1) / (- step) + 1)%Z else 0%Z)
  else None.

(** [range(lo, hi, step)], element k being [lo + k * step]. *)
Definition range (lo hi step : Z) : Result (list Z) :=
  match range_len lo hi step with
  | None => Err RangeStepZero
  | Some len =>
      Ok (map (fun k => (lo + Z.of_nat k * step)%Z) (seq 0 (Z.to_nat len)))
  end.

(** A bound of a slice, clamped as Python does: a negative bound counts
    from the end. *)
Definition slice_bound (len x : Z) : Z :=
  if (x <? 0)%Z then Z.max 0 (x + len) else Z.min x len.

(** [l[lo:hi]] *)
Definition slice {A : Type} (l : list A) (lo hi : Z) : list A :=
  let len := Z.of_nat (length l) in
  let a := slice_bound len lo in
  let b := slice_bound len hi in
  firstn (Z.to_nat (b - a)) (skipn (Z.to_nat a) l).

(** [l[i]] for an index that is not negative. *)
Definition getitem {A : Type} (l : list A) (i : nat) : Result A :=
  match nth_error l i with
  | Some x => Ok x
  | None => Err IndexError
  end.

(** [c in chars] *)
Fixpoint contains (chars : string) (c : ascii) : bool :=
  match chars with
  | EmptyString => false
  | String a t => Ascii.eqb a c || contains t c
  end.

(** [s.rstrip(chars)]: [s] without its trailing characters that are in
    [chars]. *)
Fixpoint rstrip (chars s : string) : string :=
  match s with
  | EmptyString => EmptyString
  | String c s' =>
      match rstrip chars s' with
      | EmptyString =>
          if contains chars c then EmptyString else String c EmptyString
      | String _ _ as r => String c r
      end
  end.

Definition LF : ascii := "010"%char.
Definition CR : ascii := "013"%char.

(** The lines the iteration over a text file opened with [newline=""]
    yields: a line ends after a line feed, after a carriage return and
    line feed, or after a carriage return alone, and keeps its ending; the
    last line may have none. *)
Fixpoint lines_untranslated (text : string) : list string :=
  match text with
  | EmptyString => []
  | String c rest =>
      if Ascii.eqb c LF then String LF EmptyString :: lines_untranslated rest
      else if Ascii.eqb c CR then
        match rest with
        | EmptyString => [String CR EmptyString]
        | String c' rest' =>
            if Ascii.eqb c' LF
            then String CR (String LF EmptyString) :: lines_untranslated rest'
            else String CR EmptyString :: lines_untranslated rest
        end
      else match lines_untranslated rest with
           | [] => [String c EmptyString]
           | l :: ls => String c l :: ls
           end
  end.

(** What a text file opened with the default [newline=None] hands to its
    reader: each of the three line endings becomes a line feed. *)
Fixpoint translate_newlines (text : string) : string :=
  match text with
  | EmptyString => EmptyString
  | String c rest =>
      if Ascii.eqb c CR then
        match rest with
        | EmptyString => String LF EmptyString
        | String c' rest' =>
            if Ascii.eqb c' LF then String LF (translate_newlines rest')
            else String LF (translate_newlines rest)
        end
      else String c (translate_newlines rest)
  end.

(** The lines of a text whose only line ending is the line feed. *)
Fixpoint lines_lf (text : string) : list string :=
  match text with
  | EmptyString => []
  | String c rest =>
      if Ascii.eqb c LF then String LF EmptyString :: lines_lf rest
      else match lines_lf rest with
           | [] => [String c EmptyString]
           | l :: ls => String c l :: ls
           end
  end.

(** The lines the iteration over a text file opened with [newline=None]
    yields. *)
Definition lines_translated (text : string) : list string :=
  lines_lf (translate_newlines text).

End Py.

(** The delimiter of the fields of a line. *)
Definition pipe : ascii := "|"%char.

(** ** The output directory *)

Record OutFile : Type := mkOutFile {
  out_path : string;          (* the file name under OUTPUT_DIR *)
  out_lines : list string     (* the lines written, each ended by a line feed *)
}.

Definition FS : Type := list OutFile.

(** ** src/Split_File.py *)

Module Split_File.

Section Reader.

(** The codecs: [decode enc raw] is the text of the bytes [raw] of the
    file under the encoding [enc], [None] being its UnicodeDecodeError;
    [decode_replace raw] is raw.decode("latin-1", errors="replace"); and
    [splitlines] is str.splitlines. *)
Variable decode : string -> string -> option string.
Variable decode_replace : string -> string.
Variable splitlines : string -> list string.

(** for enc in (...): try: return [line.rstrip("\r\n") for line in f]
    except UnicodeDecodeError: ... *)
Fixpoint try_encodings (encs : list string) (raw : string)
  : option (list string) :=
  match encs with
  | [] => None
  | enc :: encs' =>
      match decode enc raw with
      | Some text =>
          Some (map (Py.rstrip (String Py.CR (String Py.LF EmptyString)))
                    (Py.lines_untranslated text))
      | None => try_encodings encs' raw
      end
  end.

(** [read_lines], from the bytes of the file: the lines, and whether the
    warning of the fallback was printed. *)
Definition read_lines (raw : string) : list string * bool :=
  match try_encodings ["utf-8"; "utf-8-sig"; "cp1252"; "latin-1"] raw with
  | Some lines => (lines, false)
  | None => (splitlines (decode_replace raw), true)
  end.

End Reader.

Section Program.

(** The CONFIGURABLE block of the module. *)
Variable ITEMS_PER_FILE : Z.
Variable OUTPUT_PREFIX : string.

(** The builtin [int] on a string: [None] is its ValueError. *)
Variable py_int : string -> option Z.

(** The loop of [parse_header_and_meta]:
    while i < len(lines) and lines[i].startswith("META_") *)
Fixpoint meta_loop (fuel : nat) (lines meta_lines : list string) (i : nat)
  : Result (list string * nat) :=
  match fuel with
  | O => Err OutOfFuel
  | S fuel' =>
      match nth_error lines i with
      | None => Ok (meta_lines, i)
      | Some l =>
          if Py.startswith l "META_"
          then meta_loop fuel' lines (meta_lines ++ [l]) (i + 1)
          else Ok (meta_lines, i)
      end
  end.

Definition parse_header_and_meta (lines : list string)
  : Result (string * list string * nat) :=
  match lines with
  | [] => Err EmptyInput
  | job_line :: _ =>
      if negb (Py.startswith job_line "JOB|") then Err MalformedHeader
      else
        do (meta_lines, i) <- meta_loop (S (length lines)) lines [] 1;
        match meta_lines with
        | [] => Err MissingMetadata
        | _ :: _ => Ok (job_line, meta_lines, i)
        end
  end.

(** The local function of [parse_groups_and_footer]:
    pos < n and lines[pos].startswith("FOOTER|") *)
Definition at_footer (lines : list string) (pos : nat) : bool :=
  match nth_error lines pos with
  | None => false
  | Some l => Py.startswith l "FOOTER|"
  end.

(** The inner loop, which gathers the lines of one item:
    while i < n and not at_footer(i) and not lines[i].startswith("CLNT_CORR|") *)
Fixpoint item_loop (fuel : nat) (lines : list string) (i : nat)
    (item_lines : list string) (role_count plan_count : nat)
  : Result (nat * list string * nat * nat) :=
  match fuel with
  | O => Err OutOfFuel
  | S fuel' =>
      match nth_error lines i with
      | None => Ok (i, item_lines, role_count, plan_count)
      | Some l =>
          if at_footer lines i || Py.startswith l "CLNT_CORR|"
          then Ok (i, item_lines, role_count, plan_count)
          else if Py.startswith l "CLNT_ROLE|"
          then item_loop fuel' lines (i + 1) (item_lines ++ [l])
                         (role_count + 1) plan_count
          else if Py.startswith l "PLAN|"
          then item_loop fuel' lines (i + 1) (item_lines ++ [l])
                         role_count (plan_count + 1)
          else Err (UnexpectedLine (i + 1) l)
      end
  end.

(** The outer loop: while i < n and not at_footer(i) *)
Fixpoint groups_loop (fuel : nat) (lines : list string) (i : nat)
    (groups : list (list string)) : Result (nat * list (list string)) :=
  match fuel with
  | O => Err OutOfFuel
  | S fuel' =>
      match nth_error lines i with
      | None => Ok (i, groups)
      | Some l =>
          if at_footer lines i then Ok (i, groups)
          else if negb (Py.startswith l "CLNT_CORR|")
          then Err (ExpectedCorrelation (i + 1) l)
          else
            do (i', item_lines, role_count, plan_count) <-
               item_loop (S (length lines)) lines (i + 1) [l] 0 0;
            if (role_count =? 0)%nat || (plan_count =? 0)%nat
            then Err (IncompleteItem (hd EmptyString item_lines)
                                     role_count plan_count)
            else groups_loop fuel' lines i' (groups ++ [item_lines])
      end
  end.

Definition parse_groups_and_footer (lines : list string) (start_idx : nat)
  : Result (list (list string) * string) :=
  do (i, groups) <- groups_loop (S (length lines)) lines start_idx [];
  match nth_error lines i with
  | None => Err MissingFooter
  | Some footer_line =>
      if negb (Py.startswith footer_line "FOOTER|") then Err LastBlockNotFooter
      else Ok (groups, footer_line)
  end.

Definition extract_job_code (job_line : string) : Result string :=
  let parts := Py.split pipe job_line in
  if (length parts <? 2)%nat then Err JobLineMalformed
  else match nth_error parts 1 with
       | Some code => Ok code
       | None => Err IndexError
       end.

(** Returns the warning it prints, if any. *)
Definition validate_footer (footer_line expected_job_code : string)
    (expected_total : nat) : Result (option Warning) :=
  match Py.split pipe footer_line with
  | [_; job_code; count_str] =>
      if negb (String.eqb job_code expected_job_code)
      then Err (FooterJobMismatch job_code expected_job_code)
      else match py_int count_str with
           | None => Err FooterCountNotInteger
           | Some orig_count =>
               if negb (orig_count =? Z.of_nat expected_total)%Z
               then Ok (Some (FooterCountMismatch orig_count expected_total))
               else Ok None
           end
  | _ => Err MalformedFooter
  end.

(** What one iteration of the [for] loop of [write_batches] writes. *)
Definition write_chunk (job_line : string) (meta_lines : list string)
    (groups : list (list string)) (items_per_file : Z) (job_code : string)
    (start : Z) (file_num : nat) : OutFile :=
  let chunk := Py.slice groups start (start + items_per_file) in
  let count := length chunk in
  let footer := ("FOOTER|" ++ job_code ++ "|" ++ Py.str count)%string in
  let out_path := (OUTPUT_PREFIX ++ Py.str file_num ++ ".csv")%string in
  mkOutFile out_path ([job_line] ++ meta_lines ++ concat chunk ++ [footer]).

(** for start in range(0, total, items_per_file): ...; file_num += 1 *)
Fixpoint batch_loop (job_line : string) (meta_lines : list string)
    (groups : list (list string)) (items_per_file : Z) (job_code : string)
    (starts : list Z) (file_num : nat) (fs : FS) : FS :=
  match starts with
  | [] => fs
  | start :: starts' =>
      batch_loop job_line meta_lines groups items_per_file job_code starts'
        (file_num + 1)
        (fs ++ [write_chunk job_line meta_lines groups items_per_file
                            job_code start file_num])
  end.

(** The writer threads the output directory: it returns the directory
    after its writes, and the error it stopped on, if any. *)
Definition write_batches (job_line : string) (meta_lines : list string)
    (groups : list (list string)) (items_per_file : Z) (job_code : string)
    (fs : FS) : FS * Result unit :=
  if (items_per_file <=? 0)%Z then (fs, Err InvalidBatchSize)
  else
    let total := Z.of_nat (length groups) in
    match Py.range 0 total items_per_file with
    | Err e => (fs, Err e)
    | Ok starts =>
        (batch_loop job_line meta_lines groups items_per_file job_code
                    starts 1 fs, Ok tt)
    end.

(** [main], from the lines [read_lines] returned.  The result carries the
    warning printed on the way. *)
Definition main (lines : list string) (fs : FS)
  : FS * Result (option Warning) :=
  match
    (do (job_line, meta_lines, idx) <- parse_header_and_meta lines;
     do (groups, footer_line) <- parse_groups_and_footer lines idx;
     do job_code <- extract_job_code job_line;
     do w <- validate_footer footer_line job_code (length groups);
     Ok (job_line, meta_lines, groups, job_code, w))
  with
  | Err e => (fs, Err e)
  | Ok (job_line, meta_lines, groups, job_code, w) =>
      match write_batches job_line meta_lines groups ITEMS_PER_FILE job_code fs with
      | (fs', Ok _) => (fs', Ok w)
      | (fs', Err e) => (fs', Err e)
      end
  end.

End Program.

End Split_File.

(** ** src/split_xpnfile.py, the simpler sibling *)

Module Split_xpnfile.

Section Reader.

(** The text of the bytes of the file under UTF-8; [None] is the
    UnicodeDecodeError, which [read_lines] lets through. *)
Variable decode_utf8 : string -> option string.

(** [read_lines], from the bytes of the file:
    [line.rstrip("\n") for line in f], the file opened with the default
    newline handling. *)
Definition read_lines (raw : string) : option (list string) :=
  match decode_utf8 raw with
  | None => None
  | Some text =>
      Some (map (Py.rstrip (String Py.LF EmptyString))
                (Py.lines_translated text))
  end.

End Reader.

Section Program.

(** The CONFIGURABLE VARIABLES, which config.ini may override. *)
Variable ITEMS_PER_FILE : Z.
Variable OUTPUT_PREFIX : string.

(** while idx < len(lines) and lines[idx].startswith("META_") *)
Fixpoint meta_loop (fuel : nat) (lines meta_lines : list string) (idx : nat)
  : Result (list string * nat) :=
  match fuel with
  | O => Err OutOfFuel
  | S fuel' =>
      match nth_error lines idx with
      | None => Ok (meta_lines, idx)
      | Some l =>
          if Py.startswith l "META_"
          then meta_loop fuel' lines (meta_lines ++ [l]) (idx + 1)
          else Ok (meta_lines, idx)
      end
  end.

Definition parse_header_and_meta (lines : list string)
  : Result (string * list string * nat) :=
  do job_line <- Py.getitem lines 0;
  if negb (Py.startswith job_line "JOB|") then Err MalformedHeader
  else
    do (meta_lines, idx) <- meta_loop (S (length lines)) lines [] 1;
    Ok (job_line, meta_lines, idx).

Definition at_footer (lines : list string) (pos : nat) : bool :=
  match nth_error lines pos with
  | None => false
  | Some l => Py.startswith l "FOOTER|"
  end.

(** while i < n and not at_footer(i): one correlation line, one role line
    and one plan line, the last two read without a test of the index. *)
Fixpoint groups_loop (fuel : nat) (lines : list string) (i : nat)
    (groups : list (list string)) : Result (nat * list (list string)) :=
  match fuel with
  | O => Err OutOfFuel
  | S fuel' =>
      match nth_error lines i with
      | None => Ok (i, groups)
      | Some l =>
          if at_footer lines i then Ok (i, groups)
          else if negb (Py.startswith l "CLNT_CORR|")
          then Err (ExpectedCorrAt (i + 1))
          else
            let corr := l in
            let i := i + 1 in
            do role <- Py.getitem lines i;
            if negb (Py.startswith role "CLNT_ROLE|")
            then Err (ExpectedRoleAt (i + 1))
            else
              let i := i + 1 in
              do plan <- Py.getitem lines i;
              if negb (Py.startswith plan "PLAN|")
              then Err (ExpectedPlanAt (i + 1))
              else
                let i := i + 1 in
                groups_loop fuel' lines i (groups ++ [[corr; role; plan]])
      end
  end.

Definition parse_groups_and_footer (lines : list string) (start_idx : nat)
  : Result (list (list string) * string) :=
  do (i, groups) <- groups_loop (S (length lines)) lines start_idx [];
  match nth_error lines i with
  | None => Err MissingFooter
  | Some footer_line => Ok (groups, footer_line)
  end.

Definition extract_job_code (job_line : string) : Result string :=
  Py.getitem (Py.split pipe job_line) 1.

Definition write_chunk (job_line : string) (meta_lines : list string)
    (groups : list (list string)) (items_per_file : Z) (job_code : string)
    (start : Z) (file_num : nat) : OutFile :=
  let chunk := Py.slice groups start (start + items_per_file) in
  let count := length chunk in
  let footer := ("FOOTER|" ++ job_code ++ "|" ++ Py.str count)%string in
  let out_path := (OUTPUT_PREFIX ++ Py.str file_num ++ ".csv")%string in
  mkOutFile out_path ([job_line] ++ meta_lines ++ concat chunk ++ [footer]).

Fixpoint batch_loop (job_line : string) (meta_lines : list string)
    (groups : list (list string)) (items_per_file : Z) (job_code : string)
    (starts : list Z) (file_num : nat) (fs : FS) : FS :=
  match starts with
  | [] => fs
  | start :: starts' =>
      batch_loop job_line meta_lines groups items_per_file job_code starts'
        (file_num + 1)
        (fs ++ [write_chunk job_line meta_lines groups items_per_file
                            job_code start file_num])
  end.

(** No test of the batch size here: [range] is the first to see it. *)
Definition write_batches (job_line : string) (meta_lines : list string)
    (groups : list (list string)) (items_per_file : Z) (job_code : string)
    (fs : FS) : FS * Result unit :=
  let total := Z.of_nat (length groups) in
  match Py.range 0 total items_per_file with
  | Err e => (fs, Err e)
  | Ok starts =>
      (batch_loop job_line meta_lines groups items_per_file job_code
                  starts 1 fs, Ok tt)
  end.

(** [main], from the lines [read_lines] returned; the footer line is read
    and not looked at again. *)
Definition main (lines : list string) (fs : FS) : FS * Result unit :=
  match
    (do (job_line, meta_lines, idx) <- parse_header_and_meta lines;
     do (groups, footer) <- parse_groups_and_footer lines idx;
     do job_code <- extract_job_code job_line;
     Ok (job_line, meta_lines, groups, job_code))
  with
  | Err e => (fs, Err e)
  | Ok (job_line, meta_lines, groups, job_code) =>
      write_batches job_line meta_lines groups ITEMS_PER_FILE job_code fs
  end.

End Program.

End Split_xpnfile.

(** ** The tags of the lines and the documents of the specification *)

Definition is_header (l : string) : bool := Py.startswith l "JOB|".
Definition is_meta (l : string) : bool := Py.startswith l "META_".
Definition is_corr (l : string) : bool := Py.startswith l "CLNT_CORR|".
Definition is_role (l : string) : bool := Py.startswith l "CLNT_ROLE|".
Definition is_plan (l : string) : bool := Py.startswith l "PLAN|".
Definition is_footer (l : string) : bool := Py.startswith l "FOOTER|".

(** A line that may follow the correlation line of an item. *)
Definition is_member (l : string) : bool := is_role l || is_plan l.

(** A line at which the lines of an item end. *)
Definition is_stop (l : string) : bool := is_footer l || is_corr l.

Definition roles (body : list string) : nat := length (filter is_role body).
Definition plans (body : list string) : nat := length (filter is_plan body).

(** The lines from a position on end the item that precedes them: there
    is none, or the first one is a footer or a correlation line. *)
Definition ends_item (rest : list string) : bool :=
  match rest with
  | [] => true
  | l :: _ => is_stop l
  end.

(** An Item of the specification: a correlation line, then role and plan
    lines in any order, at least one of each. *)
Definition valid_item (item : list string) : bool :=
  match item with
  | [] => false
  | c :: body =>
      is_corr c && forallb is_member body
      && (1 <=? roles body)%nat && (1 <=? plans body)%nat
  end.

(** The item of the sibling: exactly one correlation line, one role line
    and one plan line, in this order. *)
Definition triple_item (item : list string) : bool :=
  match item with
  | [c; r; p] => is_corr c && is_role r && is_plan p
  | _ => false
  end.

(** A Document of the specification, before its footer. *)
Record Document : Type := mkDocument {
  header_line : string;
  metadata_lines : list string;
  items : list (list string)
}.

Definition valid_document (d : Document) : bool :=
  is_header (header_line d)
  && negb (length (metadata_lines d) =? 0)%nat
  && forallb is_meta (metadata_lines d)
  && forallb valid_item (items d).

(** The lines of a document followed by a footer line. *)
Definition serialize (d : Document) (footer : string) : list string :=
  [header_line d] ++ metadata_lines d ++ concat (items d) ++ [footer].

(** The longest run of leading elements that satisfy [f]. *)
Fixpoint take_while {A : Type} (f : A -> bool) (l : list A) : list A :=
  match l with
  | [] => []
  | x :: t => if f x then x :: take_while f t else []
  end.

(** The metadata lines that follow the header line: the run of
    metadata-tagged lines right after it. *)
Definition leading_meta (rest : list string) : list string :=
  take_while is_meta rest.

(** The item grammar of the specification (section 4.2, steps 3 and 4),
    as a relation between the lines from position [start] on and the
    outcome the specification gives them.  [start] only serves the line
    numbers of the diagnostics, which count from 1. *)
Inductive reads (start : nat)
  : list string -> Result (list (list string) * string) -> Prop :=
| reads_end its :
    (* complete items up to the end of the input *)
    forallb valid_item its = true ->
    reads start (concat its) (Err MissingFooter)
| reads_footer its f rest :
    (* complete items up to a footer line *)
    forallb valid_item its = true -> is_footer f = true ->
    reads start (concat its ++ f :: rest) (Ok (its, f))
| reads_not_corr x rest :
    (* the first line is neither a footer nor a correlation line; after an
       item such a line belongs to the item or is unexpected in it *)
    is_footer x = false -> is_corr x = false ->
    reads start (x :: rest) (Err (ExpectedCorrelation (start + 1) x))
| reads_unexpected its c body x rest :
    (* complete items, then an item with a line of no known kind *)
    forallb valid_item its = true ->
    is_corr c = true -> forallb is_member body = true ->
    is_member x = false -> is_stop x = false ->
    reads start (concat its ++ (c :: body) ++ x :: rest)
      (Err (UnexpectedLine
              (start + length (concat its) + S (length body) + 1) x))
| reads_incomplete its c body rest :
    (* complete items, then an item without a role or without a plan line *)
    forallb valid_item its = true ->
    is_corr c = true -> forallb is_member body = true ->
    ends_item rest = true ->
    roles body = 0 \/ plans body = 0 ->
    reads start (concat its ++ (c :: body) ++ rest)
      (Err (IncompleteItem c (roles body) (plans body))).

(** The chunks the [for] loop of [write_batches] cuts the items into. *)
Definition chunks {A : Type} (groups : list A) (items_per_file : Z)
  : list (list A) :=
  match Py.range 0 (Z.of_nat (length groups)) items_per_file with
  | Ok starts =>
      map (fun start => Py.slice groups start (start + items_per_file)) starts
  | Err _ => []
  end.

(** The footer line of a chunk of [count] items. *)
Definition footer_of (job_code : string) (count : nat) : string :=
  ("FOOTER|" ++ job_code ++ "|" ++ Py.str count)%string.

(** The file number [file_num] of a chunk: the name and the lines the
    specification (section 4.3) gives it. *)
Definition render (OUTPUT_PREFIX job_line : string) (meta_lines : list string)
    (job_code : string) (file_num : nat) (chunk : list (list string))
  : OutFile :=
  mkOutFile (OUTPUT_PREFIX ++ Py.str file_num ++ ".csv")%string
            (serialize (mkDocument job_line meta_lines chunk)
                       (footer_of job_code (length chunk))).

(** The chunks with their file numbers, which count from 1. *)
Definition numbered {A : Type} (l : list A) : list (nat * A) :=
  combine (seq 1 (length l)) l.

Definition render_all (OUTPUT_PREFIX job_line : string)
    (meta_lines : list string) (job_code : string)
    (cs : list (list (list string))) : list OutFile :=
  map (fun kc => render OUTPUT_PREFIX job_line meta_lines job_code
                        (fst kc) (snd kc))
      (numbered cs).

(** ceil(total / b) for a positive [b]. *)
Definition ceil_div (total b : Z) : Z := ((total + b - 1) / b)%Z.

(** The character [c] occurs in [s]. *)
Fixpoint has_char (c : ascii) (s : string) : bool :=
  match s with
  | EmptyString => false
  | String a s' => Ascii.eqb a c || has_char c s'
  end.

(** The characters [read_lines] strips: "\r\n" in Split_File.py and "\n"
    in the sibling. *)
Definition CRLF : string := String Py.CR (String Py.LF EmptyString).
Definition LFs : string := String Py.LF EmptyString.

(** A line without a carriage return and without a line feed. *)
Definition no_crlf (l : string) : bool :=
  negb (has_char Py.CR l) && negb (has_char Py.LF l).

(** The text of a written file: each line followed by a line feed (the
    files are opened with newline="\n", which leaves the text as it is). *)
Fixpoint file_text (ls : list string) : string :=
  match ls with
  | [] => EmptyString
  | l :: ls' => (l ++ String Py.LF (file_text ls'))%string
  end.

(** The item policy of the sibling as a relation between the lines from
    position [start] on and the outcome: items of three lines, each line
    of an item looked up without a test of the bound. *)
Inductive sibling_reads (start : nat)
  : list string -> Result (list (list string) * string) -> Prop :=
| sreads_end its :
    forallb triple_item its = true ->
    sibling_reads start (concat its) (Err MissingFooter)
| sreads_footer its f rest :
    forallb triple_item its = true -> is_footer f = true ->
    sibling_reads start (concat its ++ f :: rest) (Ok (its, f))
| sreads_not_corr its x rest :
    forallb triple_item its = true ->
    is_footer x = false -> is_corr x = false ->
    sibling_reads start (concat its ++ x :: rest)
      (Err (ExpectedCorrAt (start + length (concat its) + 1)))
| sreads_role_missing its c :
    (* the input ends after a correlation line *)
    forallb triple_item its = true -> is_corr c = true ->
    sibling_reads start (concat its ++ [c]) (Err IndexError)
| sreads_not_role its c x rest :
    forallb triple_item its = true -> is_corr c = true ->
    is_role x = false ->
    sibling_reads start (concat its ++ c :: x :: rest)
      (Err (ExpectedRoleAt (start + length (concat its) + 2)))
| sreads_plan_missing its c r :
    (* the input ends after a correlation line and a role line *)
    forallb triple_item its = true -> is_corr c = true -> is_role r = true ->
    sibling_reads start (concat its ++ [c; r]) (Err IndexError)
| sreads_not_plan its c r x rest :
    forallb triple_item its = true -> is_corr c = true -> is_role r = true ->
    is_plan x = false ->
    sibling_reads start (concat its ++ c :: r :: x :: rest)
      (Err (ExpectedPlanAt (start + length (concat its) + 3))).

(** An integer parser for the closed examples: a string of decimal
    digits. *)
Fixpoint digits_value (s : string) (acc : Z) : option Z :=
  match s with
  | EmptyString => Some acc
  | String c s' =>
      let n := nat_of_ascii c in
      if ((48 <=? n) && (n <=? 57))%nat
      then digits_value s' (10 * acc + Z.of_nat (n - 48))%Z
      else None
  end.

Definition int_of_digits (s : string) : option Z :=
  match s with
  | EmptyString => None
  | _ => digits_value s 0%Z
  end.

(** * Properties *)

(** ** Lists read through an index *)

Section Cursor.

Context {A : Type}.

Lemma skipn_at (l : list A) (i : nat) (x : A) :
  nth_error l i = Some x -> skipn i l = x :: skipn (i + 1) l.
Proof.
  revert l; induction i as [|i IH]; intros [|y l] H; simpl in *; try discriminate.
  - now inversion H.
  - now apply IH.
Qed.

Lemma skipn_past (l : list A) (i : nat) :
  nth_error l i = None -> skipn i l = [].
Proof.
  intros H. apply skipn_all2. now apply nth_error_None.
Qed.

Lemma at_skipn (l : list A) (i : nat) (x : A) (r : list A) :
  skipn i l = x :: r -> nth_error l i = Some x /\ skipn (i + 1) l = r.
Proof.
  intros H. destruct (nth_error l i) as [y|] eqn:E.
  - rewrite (skipn_at _ _ _ E) in H. inversion H; subst. now split.
  - rewrite (skipn_past _ _ E) in H. discriminate.
Qed.

Lemma past_skipn (l : list A) (i : nat) :
  skipn i l = [] -> nth_error l i = None.
Proof.
  intros H. destruct (nth_error l i) as [y|] eqn:E; [|reflexivity].
  rewrite (skipn_at _ _ _ E) in H. discriminate.
Qed.

Lemma skipn_after (l pre suf : list A) (i : nat) :
  skipn i l = pre ++ suf -> skipn (i + length pre) l = suf.
Proof.
  intros H. rewrite Nat.add_comm, <- skipn_skipn, H.
  clear H. induction pre; simpl; auto.
Qed.

Lemma skipn_length_le (l : list A) (i : nat) :
  length (skipn i l) <= length l.
Proof. rewrite length_skipn. lia. Qed.

End Cursor.

(** ** Tags exclude one another *)

Lemma prefix_comparable (p q s : string) :
  String.prefix p s = true -> String.prefix q s = true ->
  String.prefix p q = true \/ String.prefix q p = true.
Proof.
  revert p q; induction s as [|c s IH]; intros [|a p] [|b q]; simpl; auto;
    try discriminate.
  destruct (ascii_dec a c), (ascii_dec b c); try discriminate; subst.
  destruct (ascii_dec c c) as [_|N]; [|now elim N]. apply IH.
Qed.

Lemma tags_clash (p q s : string) :
  String.prefix p q = false -> String.prefix q p = false ->
  Py.startswith s p = true -> Py.startswith s q = false.
Proof.
  unfold Py.startswith. intros Hpq Hqp Hp.
  destruct (String.prefix q s) eqn:Hq; [|reflexivity].
  destruct (prefix_comparable _ _ _ Hp Hq); congruence.
Qed.

Lemma role_not_plan l : is_role l = true -> is_plan l = false.
Proof. now apply tags_clash. Qed.

Lemma plan_not_role l : is_plan l = true -> is_role l = false.
Proof. now apply tags_clash. Qed.

Lemma role_not_stop l : is_role l = true -> is_stop l = false.
Proof.
  intros H. unfold is_stop, is_footer, is_corr.
  rewrite (tags_clash "CLNT_ROLE|" "FOOTER|"), (tags_clash "CLNT_ROLE|" "CLNT_CORR|"); auto.
Qed.

Lemma plan_not_stop l : is_plan l = true -> is_stop l = false.
Proof.
  intros H. unfold is_stop, is_footer, is_corr.
  rewrite (tags_clash "PLAN|" "FOOTER|"), (tags_clash "PLAN|" "CLNT_CORR|"); auto.
Qed.

Lemma member_not_stop l : is_member l = true -> is_stop l = false.
Proof.
  unfold is_member. intros H. apply orb_true_iff in H as [H|H];
    [now apply role_not_stop | now apply plan_not_stop].
Qed.

Lemma corr_not_footer l : is_corr l = true -> is_footer l = false.
Proof. now apply tags_clash. Qed.

Lemma corr_not_meta l : is_corr l = true -> is_meta l = false.
Proof. now apply tags_clash. Qed.

Lemma footer_not_meta l : is_footer l = true -> is_meta l = false.
Proof. now apply tags_clash. Qed.

Lemma footer_not_corr l : is_footer l = true -> is_corr l = false.
Proof. now apply tags_clash. Qed.

(** ** The loops of Split_File.parse_groups_and_footer *)

Ltac tags := unfold is_member, is_stop, is_footer, is_corr, is_role, is_plan,
  is_meta, is_header in *.

Lemma roles_cons l body :
  roles (l :: body) = (if is_role l then 1 else 0) + roles body.
Proof. unfold roles; simpl. now destruct (is_role l). Qed.

Lemma plans_cons l body :
  plans (l :: body) = (if is_plan l then 1 else 0) + plans body.
Proof. unfold plans; simpl. now destruct (is_plan l). Qed.

Lemma at_footer_here lines i l :
  nth_error lines i = Some l -> Split_File.at_footer lines i = is_footer l.
Proof. intros H. unfold Split_File.at_footer. now rewrite H. Qed.

Lemma ok4 {A B C D : Type} (a a' : A) (b b' : B) (c c' : C) (d d' : D) :
  a = a' -> b = b' -> c = c' -> d = d' ->
  @Ok (A * B * C * D) (a, b, c, d) = Ok (a', b', c', d').
Proof. now intros -> -> -> ->. Qed.

(** The inner loop takes the role and plan lines up to the line that ends
    the item. *)
Lemma item_loop_run body : forall lines i acc rc pc fuel rest,
  skipn i lines = body ++ rest ->
  forallb is_member body = true ->
  ends_item rest = true ->
  length body < fuel ->
  Split_File.item_loop fuel lines i acc rc pc
  = Ok (i + length body, acc ++ body, rc + roles body, pc + plans body).
Proof.
  induction body as [|a body IH]; intros lines i acc rc pc fuel rest Hs Hm He Hf;
    (destruct fuel as [|fuel]; [simpl in Hf; lia|]); simpl in Hs |- *.
  - rewrite app_nil_r, !Nat.add_0_r.
    destruct rest as [|l rest].
    + now rewrite (past_skipn _ _ Hs).
    + apply at_skipn in Hs as [Hn _]. rewrite Hn, (at_footer_here _ _ _ Hn).
      simpl in He. unfold is_stop in He. tags. now rewrite He.
  - apply at_skipn in Hs as [Hn Hs]. rewrite Hn, (at_footer_here _ _ _ Hn).
    apply andb_true_iff in Hm as [Ha Hm].
    pose proof (member_not_stop _ Ha) as Hstop. unfold is_stop in Hstop.
    rewrite roles_cons, plans_cons.
    change (Py.startswith a "CLNT_CORR|") with (is_corr a). rewrite Hstop.
    change (Py.startswith a "CLNT_ROLE|") with (is_role a).
    change (Py.startswith a "PLAN|") with (is_plan a).
    simpl in Hf.
    destruct (is_role a) eqn:Hr.
    + rewrite (role_not_plan _ Hr).
      rewrite (IH lines (i + 1) (acc ++ [a]) (rc + 1) pc fuel rest Hs Hm He) by lia.
      apply ok4; simpl; try lia. now rewrite <- app_assoc.
    + unfold is_member in Ha. rewrite Hr in Ha. simpl in Ha. rewrite Ha.
      rewrite (IH lines (i + 1) (acc ++ [a]) rc (pc + 1) fuel rest Hs Hm He) by lia.
      apply ok4; simpl; try lia. now rewrite <- app_assoc.
Qed.

(** The inner loop stops on the first line that is neither a role line nor
    a plan line and does not end the item. *)
Lemma item_loop_unexpected body : forall lines i acc rc pc fuel x rest,
  skipn i lines = body ++ x :: rest ->
  forallb is_member body = true ->
  is_member x = false -> is_stop x = false ->
  length body < fuel ->
  Split_File.item_loop fuel lines i acc rc pc
  = Err (UnexpectedLine (i + length body + 1) x).
Proof.
  induction body as [|a body IH]; intros lines i acc rc pc fuel x rest Hs Hm Hx Hst Hf;
    (destruct fuel as [|fuel]; [simpl in Hf; lia|]); simpl in Hs |- *;
    apply at_skipn in Hs as [Hn Hs]; rewrite Hn, (at_footer_here _ _ _ Hn).
  - unfold is_stop in Hst. unfold is_member in Hx.
    apply orb_false_iff in Hx as [Hr Hp].
    change (Py.startswith x "CLNT_CORR|") with (is_corr x). rewrite Hst.
    change (Py.startswith x "CLNT_ROLE|") with (is_role x).
    change (Py.startswith x "PLAN|") with (is_plan x).
    rewrite Hr, Hp. now rewrite Nat.add_0_r.
  - apply andb_true_iff in Hm as [Ha Hm].
    pose proof (member_not_stop _ Ha) as Hstop. unfold is_stop in Hstop.
    change (Py.startswith a "CLNT_CORR|") with (is_corr a). rewrite Hstop.
    change (Py.startswith a "CLNT_ROLE|") with (is_role a).
    change (Py.startswith a "PLAN|") with (is_plan a).
    simpl in Hf.
    destruct (is_role a) eqn:Hr.
    + rewrite (IH lines (i + 1) _ _ _ fuel x rest Hs Hm Hx Hst) by lia.
      do 2 f_equal. lia.
    + unfold is_member in Ha. rewrite Hr in Ha. simpl in Ha. rewrite Ha.
      rewrite (IH lines (i + 1) _ _ _ fuel x rest Hs Hm Hx Hst) by lia.
      do 2 f_equal. lia.
Qed.

(** Every run of lines splits into its leading role and plan lines and a
    line that is neither, if any. *)
Lemma members_span (suf : list string) :
  exists body rest,
    suf = body ++ rest /\ forallb is_member body = true
    /\ match rest with [] => True | x :: _ => is_member x = false end.
Proof.
  induction suf as [|l suf (body & rest & E & Hm & Hr)].
  - now exists [], [].
  - destruct (is_member l) eqn:Hl.
    + exists (l :: body), rest. subst. simpl. now rewrite Hl.
    + exists [], (l :: suf). now simpl.
Qed.

Lemma span_fits {A : Type} (lines body rest : list A) (i : nat) :
  skipn i lines = body ++ rest -> length body < S (length lines).
Proof.
  intros H. pose proof (skipn_length_le lines i) as L.
  rewrite H, length_app in L. lia.
Qed.

Lemma groups_loop_eq fuel lines i groups :
  Split_File.groups_loop (S fuel) lines i groups
  = match nth_error lines i with
    | None => Ok (i, groups)
    | Some l =>
        if Split_File.at_footer lines i then Ok (i, groups)
        else if negb (is_corr l) then Err (ExpectedCorrelation (i + 1) l)
        else
          do (i', item_lines, role_count, plan_count) <-
             Split_File.item_loop (S (length lines)) lines (i + 1) [l] 0 0;
          if (role_count =? 0)%nat || (plan_count =? 0)%nat
          then Err (IncompleteItem (hd EmptyString item_lines)
                                   role_count plan_count)
          else Split_File.groups_loop fuel lines i' (groups ++ [item_lines])
    end.
Proof. reflexivity. Qed.

(** One turn of the outer loop on a correlation line followed by role and
    plan lines up to the end of the item. *)
Lemma groups_loop_item c body rest lines i groups fuel :
  skipn i lines = (c :: body) ++ rest ->
  is_corr c = true -> forallb is_member body = true -> ends_item rest = true ->
  Split_File.groups_loop (S fuel) lines i groups
  = if (roles body =? 0)%nat || (plans body =? 0)%nat
    then Err (IncompleteItem c (roles body) (plans body))
    else Split_File.groups_loop fuel lines (i + S (length body))
                                (groups ++ [c :: body]).
Proof.
  intros Hs Hc Hm He. simpl in Hs. apply at_skipn in Hs as [Hn Hs].
  rewrite groups_loop_eq, Hn, (at_footer_here _ _ _ Hn), (corr_not_footer _ Hc), Hc.
  simpl negb. cbv iota.
  rewrite (item_loop_run body lines (i + 1) [c] 0 0 _ rest Hs Hm He)
    by exact (span_fits _ _ _ _ Hs).
  unfold bind. simpl. replace (i + 1 + length body) with (i + S (length body)) by lia.
  reflexivity.
Qed.

(** One turn of the outer loop on an item that holds a line of no known
    kind. *)
Lemma groups_loop_unexpected c body x rest lines i groups fuel :
  skipn i lines = (c :: body) ++ x :: rest ->
  is_corr c = true -> forallb is_member body = true ->
  is_member x = false -> is_stop x = false ->
  Split_File.groups_loop (S fuel) lines i groups
  = Err (UnexpectedLine (i + S (length body) + 1) x).
Proof.
  intros Hs Hc Hm Hx Hst. simpl in Hs. apply at_skipn in Hs as [Hn Hs].
  rewrite groups_loop_eq, Hn, (at_footer_here _ _ _ Hn), (corr_not_footer _ Hc), Hc.
  simpl negb. cbv iota.
  rewrite (item_loop_unexpected body lines (i + 1) [c] 0 0 _ x rest Hs Hm Hx Hst)
    by exact (span_fits _ _ _ _ Hs).
  unfold bind. do 2 f_equal. lia.
Qed.

Lemma valid_item_inv item :
  valid_item item = true ->
  exists c body, item = c :: body /\ is_corr c = true
    /\ forallb is_member body = true
    /\ ((roles body =? 0)%nat || (plans body =? 0)%nat) = false.
Proof.
  destruct item as [|c body]; unfold valid_item; [discriminate|].
  rewrite !andb_true_iff. intros [[[Hc Hm] Hr] Hp].
  exists c, body. repeat split; auto.
  apply Nat.leb_le in Hr, Hp. apply orb_false_iff.
  split; apply Nat.eqb_neq; lia.
Qed.

Lemma ends_item_items its rest :
  forallb valid_item its = true -> ends_item rest = true ->
  ends_item (concat its ++ rest) = true.
Proof.
  destruct its as [|it its]; simpl; auto.
  rewrite andb_true_iff. intros [Hv _] _.
  apply valid_item_inv in Hv as (c & body & -> & Hc & _). simpl.
  unfold is_stop. rewrite Hc. apply orb_true_r.
Qed.

(** The outer loop takes complete items one after the other. *)
Lemma groups_loop_advance its : forall lines i groups fuel rest,
  skipn i lines = concat its ++ rest ->
  forallb valid_item its = true ->
  ends_item rest = true ->
  Split_File.groups_loop (length its + fuel) lines i groups
  = Split_File.groups_loop fuel lines (i + length (concat its)) (groups ++ its).
Proof.
  induction its as [|it its IH]; intros lines i groups fuel rest Hs Hv He.
  - simpl. now rewrite Nat.add_0_r, app_nil_r.
  - simpl in Hv. apply andb_true_iff in Hv as [Hit Hv].
    apply valid_item_inv in Hit as (c & body & -> & Hc & Hm & Hn).
    simpl in Hs. rewrite <- app_assoc in Hs.
    change (length ((c :: body) :: its) + fuel) with (S (length its + fuel)).
    rewrite (groups_loop_item c body (concat its ++ rest) lines i groups _ Hs Hc Hm
               (ends_item_items _ _ Hv He)), Hn.
    assert (Hs' : skipn (i + S (length body)) lines = concat its ++ rest).
    { exact (skipn_after lines (c :: body) _ i Hs). }
    rewrite (IH lines _ (groups ++ [c :: body]) fuel rest Hs' Hv He).
    rewrite <- app_assoc.
    change (concat ((c :: body) :: its)) with ((c :: body) ++ concat its).
    rewrite length_app. simpl. f_equal. lia.
Qed.


(** ** Split_File.parse_groups_and_footer follows the item grammar *)

Lemma groups_loop_stop fuel lines i groups :
  ends_item (skipn i lines) = true ->
  match skipn i lines with [] => True | l :: _ => is_footer l = true end ->
  Split_File.groups_loop (S fuel) lines i groups = Ok (i, groups).
Proof.
  intros _ H. rewrite groups_loop_eq.
  destruct (skipn i lines) as [|l r] eqn:E.
  - now rewrite (past_skipn _ _ E).
  - apply at_skipn in E as [Hn _]. now rewrite Hn, (at_footer_here _ _ _ Hn), H.
Qed.

Lemma items_fit (its : list (list string)) :
  forallb valid_item its = true -> length its <= length (concat its).
Proof.
  induction its as [|it its IH]; simpl; auto.
  rewrite andb_true_iff. intros [Hv Hs].
  apply valid_item_inv in Hv as (c & body & -> & _).
  rewrite length_app. simpl. specialize (IH Hs). lia.
Qed.

(** The fuel [parse_groups_and_footer] supplies, split for [its] items. *)
Lemma fuel_split lines i (its : list (list string)) rest :
  skipn i lines = concat its ++ rest ->
  forallb valid_item its = true ->
  S (length lines) = length its + S (length lines - length its).
Proof.
  intros Hs Hv. pose proof (items_fit its Hv) as L.
  pose proof (skipn_length_le lines i) as L'.
  rewrite Hs, length_app in L'. lia.
Qed.

Theorem reads_sound lines start r :
  reads start (skipn start lines) r ->
  Split_File.parse_groups_and_footer lines start = r.
Proof.
  intros H. unfold Split_File.parse_groups_and_footer.
  remember (skipn start lines) as suf eqn:Hs. symmetry in Hs.
  destruct H as [its Hv | its f rest Hv Hf | x rest Hf Hc
                | its c body x rest Hv Hc Hm Hx Hst
                | its c body rest Hv Hc Hm He Hz].
  - rewrite <- (app_nil_r (concat its)) in Hs.
    rewrite (fuel_split _ _ _ _ Hs Hv),
      (groups_loop_advance its lines start [] _ [] Hs Hv eq_refl).
    apply skipn_after in Hs.
    rewrite groups_loop_stop by now rewrite Hs.
    unfold bind. now rewrite (past_skipn _ _ Hs).
  - assert (He : ends_item (f :: rest) = true)
      by (simpl; unfold is_stop; now rewrite Hf).
    rewrite (fuel_split _ _ _ _ Hs Hv),
      (groups_loop_advance its lines start [] _ _ Hs Hv He).
    apply skipn_after in Hs.
    rewrite groups_loop_stop by now rewrite Hs.
    unfold bind. apply at_skipn in Hs as [Hn _]. rewrite Hn.
    change (Py.startswith f "FOOTER|") with (is_footer f). now rewrite Hf.
  - apply at_skipn in Hs as [Hn _].
    rewrite groups_loop_eq, Hn, (at_footer_here _ _ _ Hn), Hf, Hc. reflexivity.
  - assert (He : ends_item ((c :: body) ++ x :: rest) = true)
      by (simpl; unfold is_stop; rewrite Hc; apply orb_true_r).
    rewrite (fuel_split _ _ _ _ Hs Hv),
      (groups_loop_advance its lines start [] _ _ Hs Hv He).
    apply skipn_after in Hs.
    now rewrite (groups_loop_unexpected c body x rest lines _ _ _ Hs Hc Hm Hx Hst).
  - assert (He' : ends_item ((c :: body) ++ rest) = true)
      by (simpl; unfold is_stop; rewrite Hc; apply orb_true_r).
    rewrite (fuel_split _ _ _ _ Hs Hv),
      (groups_loop_advance its lines start [] _ _ Hs Hv He').
    apply skipn_after in Hs.
    rewrite (groups_loop_item c body rest lines _ _ _ Hs Hc Hm He).
    assert (Hz' : ((roles body =? 0)%nat || (plans body =? 0)%nat) = true).
    { apply orb_true_iff. destruct Hz as [Hz|Hz]; [left|right]; now apply Nat.eqb_eq. }
    now rewrite Hz'.
Qed.

(** A complete item in front of lines that already have a reading. *)
Lemma reads_after_item item rest start r :
  valid_item item = true -> ends_item rest = true ->
  reads (start + length item) rest r ->
  exists r', reads start (item ++ rest) r'.
Proof.
  intros Hv He H.
  destruct H as [its Hvs | its f rest Hvs Hf | x rest Hf Hc
                | its c body x rest Hvs Hc Hm Hx Hst
                | its c body rest Hvs Hc Hm He' Hz].
  - eexists. rewrite <- (app_nil_r (concat its)).
    change (item ++ concat its ++ []) with (item ++ concat its ++ []).
    rewrite app_nil_r. change (item ++ concat its) with (concat (item :: its)).
    apply reads_end. simpl. now rewrite Hv.
  - eexists. rewrite app_assoc. change (item ++ concat its) with (concat (item :: its)).
    apply reads_footer; auto. simpl. now rewrite Hv.
  - simpl in He. unfold is_stop in He. rewrite Hf, Hc in He. discriminate.
  - eexists. rewrite app_assoc. change (item ++ concat its) with (concat (item :: its)).
    apply reads_unexpected; auto. simpl. now rewrite Hv.
  - eexists. rewrite app_assoc. change (item ++ concat its) with (concat (item :: its)).
    apply reads_incomplete; auto. simpl. now rewrite Hv.
Qed.

(** Every run of lines has a reading. *)
Theorem reads_total (suf : list string) : forall start, exists r, reads start suf r.
Proof.
  remember (length suf) as n eqn:Hn. revert suf Hn.
  induction n as [n IH] using lt_wf_ind. intros suf Hn start.
  destruct suf as [|l t].
  - exists (Err MissingFooter). exact (reads_end start [] eq_refl).
  - destruct (is_footer l) eqn:Hf.
    { eexists. exact (reads_footer start [] l t eq_refl Hf). }
    destruct (is_corr l) eqn:Hc.
    2:{ eexists. exact (reads_not_corr start l t Hf Hc). }
    destruct (members_span t) as (body & rest & -> & Hm & Hr).
    destruct (ends_item rest) eqn:He.
    + destruct (Nat.eq_dec (roles body) 0) as [Hz|Hz].
      { eexists. exact (reads_incomplete start [] l body rest eq_refl Hc Hm He (or_introl Hz)). }
      destruct (Nat.eq_dec (plans body) 0) as [Hp|Hp].
      { eexists. exact (reads_incomplete start [] l body rest eq_refl Hc Hm He (or_intror Hp)). }
      assert (Hv : valid_item (l :: body) = true).
      { unfold valid_item. rewrite Hc, Hm. cbn [andb].
        apply andb_true_iff; split; apply Nat.leb_le; lia. }
      destruct (IH (length rest)) with (suf := rest) (start := start + length (l :: body))
        as [r Hr']; auto.
      { subst n. simpl. rewrite length_app. lia. }
      exact (reads_after_item (l :: body) rest start r Hv He Hr').
    + destruct rest as [|x rest]; [discriminate|]. simpl in He.
      eexists. exact (reads_unexpected start [] l body x rest eq_refl Hc Hm Hr He).
Qed.

(** The parser of Split_File.py is the item grammar. *)
Theorem parse_groups_and_footer_reads lines start r :
  Split_File.parse_groups_and_footer lines start = r
  <-> reads start (skipn start lines) r.
Proof.
  split; [|apply reads_sound].
  intros <-. destruct (reads_total (skipn start lines) start) as [r Hr].
  now rewrite (reads_sound _ _ _ Hr).
Qed.


(** ** The header and the metadata lines *)

Lemma sibling_meta_loop :
  Split_xpnfile.meta_loop = Split_File.meta_loop.
Proof. reflexivity. Qed.

Lemma meta_loop_run fuel : forall lines acc i,
  length (skipn i lines) < fuel ->
  Split_File.meta_loop fuel lines acc i
  = Ok (acc ++ leading_meta (skipn i lines),
        i + length (leading_meta (skipn i lines))).
Proof.
  induction fuel as [|fuel IH]; intros lines acc i Hf; [lia|]. simpl.
  destruct (nth_error lines i) as [l|] eqn:Hn.
  - rewrite (skipn_at _ _ _ Hn) in Hf |- *. simpl in Hf.
    unfold leading_meta. simpl.
    change (Py.startswith l "META_") with (is_meta l).
    destruct (is_meta l).
    + rewrite IH by lia. unfold leading_meta. simpl.
      rewrite <- app_assoc. simpl. do 2 f_equal. lia.
    + now rewrite app_nil_r, Nat.add_0_r.
  - rewrite (skipn_past _ _ Hn). simpl. now rewrite app_nil_r, Nat.add_0_r.
Qed.

(** What the header parser of Split_File.py returns on a well-formed
    header line. *)
Lemma parse_header_and_meta_run job rest :
  is_header job = true ->
  Split_File.parse_header_and_meta (job :: rest)
  = match leading_meta rest with
    | [] => Err MissingMetadata
    | _ :: _ => Ok (job, leading_meta rest, 1 + length (leading_meta rest))
    end.
Proof.
  intros Hj. unfold Split_File.parse_header_and_meta.
  change (Py.startswith job "JOB|") with (is_header job). rewrite Hj. simpl negb.
  cbv iota. rewrite meta_loop_run by (simpl; lia). simpl.
  now destruct (leading_meta rest).
Qed.

(** The sibling returns the same run of metadata lines, empty or not. *)
Lemma sibling_parse_header_and_meta_run job rest :
  is_header job = true ->
  Split_xpnfile.parse_header_and_meta (job :: rest)
  = Ok (job, leading_meta rest, 1 + length (leading_meta rest)).
Proof.
  intros Hj. unfold Split_xpnfile.parse_header_and_meta.
  change (Py.getitem (job :: rest) 0) with (Ok job).
  cbv beta iota delta [bind].
  change (Py.startswith job "JOB|") with (is_header job). rewrite Hj. simpl negb.
  cbv iota. rewrite sibling_meta_loop, meta_loop_run by (simpl; lia). reflexivity.
Qed.


(** ** The fields of a line *)

Lemma split_not_nil sep s : Py.split sep s <> [].
Proof.
  destruct s as [|c s]; simpl; [discriminate|].
  destruct (Ascii.eqb c sep); [discriminate|].
  destruct (Py.split sep s); discriminate.
Qed.

Lemma prefix_app (p s : string) :
  String.prefix p s = true -> exists t, s = (p ++ t)%string.
Proof.
  revert s; induction p as [|a p IH]; intros s H.
  - now exists s.
  - destruct s as [|b s]; simpl in H; [discriminate|].
    destruct (ascii_dec a b); [subst|discriminate].
    destruct (IH s H) as [t ->]. now exists t.
Qed.

(** A line that passes the header test has a second field. *)
Lemma header_fields job_line :
  is_header job_line = true ->
  exists code more, Py.split pipe job_line = "JOB" :: code :: more.
Proof.
  intros H. apply prefix_app in H as [t ->]. simpl.
  destruct (Py.split pipe t) as [|code more] eqn:E.
  - now apply split_not_nil in E.
  - now exists code, more.
Qed.


(** ** The batch writer *)

Lemma sibling_batch_loop :
  Split_xpnfile.batch_loop = Split_File.batch_loop.
Proof. reflexivity. Qed.

Lemma range_from_zero (total step : Z) :
  (0 <= total)%Z -> (0 < step)%Z ->
  Py.range 0 total step
  = Ok (map (fun k => (Z.of_nat k * step)%Z)
            (seq 0 (Z.to_nat (ceil_div total step)))).
Proof.
  intros Ht Hs. unfold Py.range, Py.range_len, ceil_div.
  apply Z.ltb_lt in Hs as Hs'. rewrite Hs'.
  assert (E : (if (0 <? total)%Z then ((total - 0 - 1) / step + 1)%Z else 0%Z)
              = ((total + step - 1) / step)%Z).
  { destruct (0 <? total)%Z eqn:E.
    - replace (total + step - 1)%Z with (total - 0 - 1 + 1 * step)%Z by lia.
      rewrite Z.div_add by lia. reflexivity.
    - apply Z.ltb_ge in E. assert (total = 0)%Z as -> by lia.
      symmetry. apply Z.div_small. lia. }
  rewrite E. reflexivity.
Qed.

Lemma slice_chunk {A : Type} (l : list A) (lo n : Z) :
  (0 <= lo)%Z -> (0 < n)%Z ->
  Py.slice l lo (lo + n) = firstn (Z.to_nat n) (skipn (Z.to_nat lo) l).
Proof.
  intros Hlo Hn. unfold Py.slice, Py.slice_bound.
  assert (E1 : (lo <? 0)%Z = false) by (apply Z.ltb_ge; lia).
  assert (E2 : (lo + n <? 0)%Z = false) by (apply Z.ltb_ge; lia).
  rewrite E1, E2.
  set (len := Z.of_nat (length l)).
  assert (Hlen : length (skipn (Z.to_nat (Z.min lo len)) l)
                 = Z.to_nat (len - Z.min lo len)).
  { rewrite length_skipn. unfold len. lia. }
  destruct (Z.le_gt_cases (lo + n) len) as [H|H].
  - rewrite !Z.min_l by lia. f_equal. lia.
  - rewrite (Z.min_r (lo + n)) by lia.
    rewrite firstn_all2 by (rewrite Hlen; lia).
    destruct (Z.le_gt_cases lo len) as [H'|H'].
    + rewrite Z.min_l by lia. symmetry. apply firstn_all2.
      rewrite length_skipn. unfold len in *. lia.
    + rewrite Z.min_r by lia.
      rewrite !skipn_all2 by (unfold len in *; lia). now rewrite firstn_nil.
Qed.

(** The chunks, in natural numbers. *)
Lemma chunks_nat {A : Type} (groups : list A) (b : Z) :
  (0 < b)%Z ->
  chunks groups b
  = map (fun k => firstn (Z.to_nat b) (skipn (k * Z.to_nat b) groups))
        (seq 0 (Z.to_nat (ceil_div (Z.of_nat (length groups)) b))).
Proof.
  intros Hb. unfold chunks. rewrite range_from_zero by lia.
  rewrite map_map. apply map_ext. intros k.
  rewrite slice_chunk by lia. do 2 f_equal. lia.
Qed.

Lemma firstn_add {A : Type} (n m : nat) (l : list A) :
  firstn (n + m) l = firstn n l ++ firstn m (skipn n l).
Proof.
  revert l; induction n as [|n IH]; intros [|x l]; simpl; auto.
  - now rewrite firstn_nil.
  - now rewrite IH.
Qed.

Lemma concat_slices {A : Type} (l : list A) (b n : nat) :
  concat (map (fun k => firstn b (skipn (k * b) l)) (seq 0 n))
  = firstn (n * b) l.
Proof.
  induction n as [|n IH]; [reflexivity|].
  rewrite seq_S, map_app, concat_app, IH. simpl.
  rewrite app_nil_r, (Nat.add_comm b), firstn_add. reflexivity.
Qed.

Lemma ceil_div_covers (total b : Z) :
  (0 <= total)%Z -> (0 < b)%Z -> (total <= ceil_div total b * b)%Z.
Proof.
  intros Ht Hb. unfold ceil_div.
  pose proof (Z.mul_succ_div_gt (total + b - 1) b Hb). lia.
Qed.

Lemma ceil_div_tight (total b : Z) :
  (0 < total)%Z -> (0 < b)%Z -> ((ceil_div total b - 1) * b < total)%Z.
Proof.
  intros Ht Hb. unfold ceil_div.
  pose proof (Z.mul_div_le (total + b - 1) b Hb). lia.
Qed.

Lemma ceil_div_nonneg (total b : Z) :
  (0 <= total)%Z -> (0 < b)%Z -> (0 <= ceil_div total b)%Z.
Proof. intros Ht Hb. unfold ceil_div. apply Z.div_pos; lia. Qed.

(** No item is lost, repeated or moved. *)
Lemma concat_chunks {A : Type} (groups : list A) (b : Z) :
  (0 < b)%Z -> concat (chunks groups b) = groups.
Proof.
  intros Hb. rewrite chunks_nat, concat_slices by assumption.
  apply firstn_all2.
  pose proof (ceil_div_covers (Z.of_nat (length groups)) b ltac:(lia) Hb).
  pose proof (ceil_div_nonneg (Z.of_nat (length groups)) b ltac:(lia) Hb).
  nia.
Qed.

Lemma length_chunks {A : Type} (groups : list A) (b : Z) :
  (0 < b)%Z ->
  length (chunks groups b)
  = Z.to_nat (ceil_div (Z.of_nat (length groups)) b).
Proof.
  intros Hb. now rewrite chunks_nat, length_map, length_seq by assumption.
Qed.

(** Chunk k is the slice of at most [b] items that starts at item k * b. *)
Lemma nth_chunk {A : Type} (groups : list A) (b : Z) (k : nat) chunk :
  (0 < b)%Z ->
  nth_error (chunks groups b) k = Some chunk ->
  chunk = firstn (Z.to_nat b) (skipn (k * Z.to_nat b) groups).
Proof.
  intros Hb. rewrite chunks_nat by assumption. intros H.
  rewrite nth_error_map, nth_error_seq in H.
  destruct (k <? _)%nat; simpl in H; [|discriminate].
  now injection H as <-.
Qed.

Lemma write_chunk_render prefix job metas groups b code start num :
  Split_File.write_chunk prefix job metas groups b code start num
  = render prefix job metas code num (Py.slice groups start (start + b)).
Proof. reflexivity. Qed.

Lemma batch_loop_run prefix job metas groups b code starts :
  forall num fs,
  Split_File.batch_loop prefix job metas groups b code starts num fs
  = fs ++ map (fun kc => render prefix job metas code (fst kc) (snd kc))
              (combine (seq num (length starts))
                       (map (fun start => Py.slice groups start (start + b))
                            starts)).
Proof.
  induction starts as [|start starts IH]; intros num fs; simpl.
  - now rewrite app_nil_r.
  - rewrite IH, write_chunk_render, <- app_assoc, Nat.add_1_r. reflexivity.
Qed.

(** With a positive batch size the writer of Split_File.py writes the
    chunks in order, one file each, and ends well. *)
Lemma write_batches_files prefix job metas groups b code fs :
  (0 < b)%Z ->
  Split_File.write_batches prefix job metas groups b code fs
  = (fs ++ render_all prefix job metas code (chunks groups b), Ok tt).
Proof.
  intros Hb. unfold Split_File.write_batches, render_all, numbered, chunks.
  assert (E : (b <=? 0)%Z = false) by (apply Z.leb_gt; lia). rewrite E.
  rewrite range_from_zero by lia. rewrite batch_loop_run.
  now rewrite !length_map.
Qed.

(** So does the writer of the sibling. *)
Lemma sibling_write_batches_files prefix job metas groups b code fs :
  (0 < b)%Z ->
  Split_xpnfile.write_batches prefix job metas groups b code fs
  = (fs ++ render_all prefix job metas code (chunks groups b), Ok tt).
Proof.
  intros Hb. rewrite <- (write_batches_files prefix job metas groups b code fs Hb).
  unfold Split_File.write_batches, Split_xpnfile.write_batches.
  assert (E : (b <=? 0)%Z = false) by (apply Z.leb_gt; lia). rewrite E.
  rewrite range_from_zero by lia. reflexivity.
Qed.

Lemma length_render_all prefix job metas code cs :
  length (render_all prefix job metas code cs) = length cs.
Proof.
  unfold render_all, numbered.
  rewrite length_map, length_combine, length_seq. lia.
Qed.

(** The file of chunk k, numbered k + 1. *)
Lemma nth_render_all prefix job metas code cs k :
  nth_error (render_all prefix job metas code cs) k
  = option_map (render prefix job metas code (k + 1)) (nth_error cs k).
Proof.
  unfold render_all, numbered. rewrite nth_error_map.
  revert k. generalize 1 as n. induction cs as [|c cs IH]; intros n k; simpl.
  - now destruct k.
  - destruct k as [|k]; simpl; [reflexivity|].
    rewrite IH. now replace (k + S n) with (S (k + n)) by lia.
Qed.

(** The sizes of the chunks: the batch size, but for the last chunk, which
    holds what is left. *)
Lemma chunk_size {A : Type} (groups : list A) (b : Z) (k : nat) chunk :
  (0 < b)%Z ->
  nth_error (chunks groups b) k = Some chunk ->
  let total := Z.of_nat (length groups) in
  Z.of_nat (length chunk)
  = if (k + 1 <? length (chunks groups b))%nat then b
    else if (total mod b =? 0)%Z then b else (total mod b)%Z.
Proof.
  intros Hb H total.
  assert (Hk : k < length (chunks groups b)) by (apply nth_error_Some; congruence).
  rewrite (nth_chunk _ _ _ _ Hb H), length_firstn, length_skipn.
  rewrite length_chunks in * by assumption.
  fold total in Hk |- *.
  assert (Ht : (0 <= total)%Z) by (unfold total; lia).
  pose proof (ceil_div_nonneg total b Ht Hb) as Hn.
  assert (Hpos : (0 < total)%Z).
  { destruct (Z.eq_dec total 0) as [E|]; [|lia].
    rewrite E in Hk. unfold ceil_div in Hk.
    rewrite Z.div_small in Hk by lia. simpl in Hk. lia. }
  pose proof (ceil_div_covers total b Ht Hb) as Hc.
  pose proof (ceil_div_tight total b Hpos Hb) as Hti.
  set (n := ceil_div total b) in *.
  destruct (k + 1 <? Z.to_nat n)%nat eqn:E.
  - apply Nat.ltb_lt in E. unfold total in *. nia.
  - apply Nat.ltb_ge in E.
    assert (Ek : Z.of_nat k = (n - 1)%Z) by lia.
    pose proof (Z.div_mod total b ltac:(lia)) as Hdm.
    pose proof (Z.mod_pos_bound total b Hb) as Hmb.
    assert (Hq : (total mod b = 0 -> total = n * b)%Z).
    { intros Hz. rewrite Hz, Z.add_0_r in Hdm.
      assert (total / b = n)%Z; [|nia]. nia. }
    assert (Hq' : (total mod b <> 0 -> total / b = n - 1)%Z).
    { intros Hz. nia. }
    destruct (total mod b =? 0)%Z eqn:Em.
    + apply Z.eqb_eq in Em. specialize (Hq Em). unfold total in *. nia.
    + apply Z.eqb_neq in Em. specialize (Hq' Em). unfold total in *. nia.
Qed.

(** A batch size above the number of items: one chunk, with all of them. *)
Lemma chunks_single {A : Type} (groups : list A) (b : Z) :
  (1 <= Z.of_nat (length groups) < b)%Z -> chunks groups b = [groups].
Proof.
  intros [H1 H2]. rewrite chunks_nat by lia.
  assert (E : ceil_div (Z.of_nat (length groups)) b = 1%Z).
  { unfold ceil_div.
    replace (Z.of_nat (length groups) + b - 1)%Z
      with ((Z.of_nat (length groups) - 1) + 1 * b)%Z by lia.
    rewrite Z.div_add, Z.div_small by lia. reflexivity. }
  rewrite E. simpl. f_equal. apply firstn_all2. lia.
Qed.

(** ** Valid documents *)

Lemma forallb_firstn_skipn {A : Type} (f : A -> bool) (l : list A) (n m : nat) :
  forallb f l = true -> forallb f (firstn n (skipn m l)) = true.
Proof.
  intros H. rewrite <- (firstn_skipn m l), forallb_app in H.
  apply andb_true_iff in H as [_ H].
  rewrite <- (firstn_skipn n (skipn m l)), forallb_app in H.
  now apply andb_true_iff in H as [H _].
Qed.

Lemma take_while_app {A : Type} (f : A -> bool) (a b : list A) :
  forallb f a = true ->
  match b with [] => True | x :: _ => f x = false end ->
  take_while f (a ++ b) = a.
Proof.
  intros Ha Hb. induction a as [|x a IH]; simpl in *.
  - destruct b as [|y b]; simpl; [reflexivity | now rewrite Hb].
  - apply andb_true_iff in Ha as [Hx Ha]. now rewrite Hx, IH.
Qed.

Lemma stop_not_meta l : is_stop l = true -> is_meta l = false.
Proof.
  unfold is_stop. intros H. apply orb_true_iff in H as [H|H];
    [now apply footer_not_meta | now apply corr_not_meta].
Qed.

Lemma prefix_append (p t : string) : String.prefix p (p ++ t) = true.
Proof.
  induction p as [|a p IH]; simpl; [now destruct t|].
  destruct (ascii_dec a a) as [_|N]; [exact IH | now elim N].
Qed.

Lemma footer_of_is_footer code n : is_footer (footer_of code n) = true.
Proof. apply prefix_append. Qed.

(** The lines of a valid document, read back. *)
Lemma parse_serialize (d : Document) (footer : string) :
  valid_document d = true -> is_footer footer = true ->
  Split_File.parse_header_and_meta (serialize d footer)
  = Ok (header_line d, metadata_lines d, 1 + length (metadata_lines d))
  /\ Split_File.parse_groups_and_footer (serialize d footer)
       (1 + length (metadata_lines d))
     = Ok (items d, footer).
Proof.
  destruct d as [job metas its]. unfold valid_document, serialize.
  cbn [header_line metadata_lines items app].
  rewrite !andb_true_iff. intros [[[Hj Hn] Hm] Hv] Hf.
  assert (He : ends_item (concat its ++ [footer]) = true).
  { apply ends_item_items; auto. simpl. unfold is_stop. now rewrite Hf. }
  split.
  - rewrite parse_header_and_meta_run by assumption.
    assert (E : leading_meta (metas ++ concat its ++ [footer]) = metas).
    { apply take_while_app; auto.
      destruct (concat its ++ [footer]) as [|x r]; [exact I|].
      now apply stop_not_meta. }
    rewrite E. destruct metas; [discriminate|reflexivity].
  - apply reads_sound.
    pose proof (skipn_after (job :: metas ++ concat its ++ [footer]) (job :: metas)
                  (concat its ++ [footer]) 0 eq_refl) as E.
    change (0 + length (job :: metas)) with (1 + length metas) in E.
    rewrite E. now apply reads_footer.
Qed.

(** ** The loop of Split_xpnfile.parse_groups_and_footer *)

Lemma sibling_at_footer : Split_xpnfile.at_footer = Split_File.at_footer.
Proof. reflexivity. Qed.

Lemma sibling_groups_loop_eq fuel lines i groups :
  Split_xpnfile.groups_loop (S fuel) lines i groups
  = match nth_error lines i with
    | None => Ok (i, groups)
    | Some l =>
        if Split_File.at_footer lines i then Ok (i, groups)
        else if negb (is_corr l) then Err (ExpectedCorrAt (i + 1))
        else
          do role <- Py.getitem lines (i + 1);
          if negb (is_role role) then Err (ExpectedRoleAt (i + 1 + 1))
          else
            do plan <- Py.getitem lines (i + 1 + 1);
            if negb (is_plan plan) then Err (ExpectedPlanAt (i + 1 + 1 + 1))
            else Split_xpnfile.groups_loop fuel lines (i + 1 + 1 + 1)
                   (groups ++ [[l; role; plan]])
    end.
Proof. reflexivity. Qed.

Lemma getitem_at {A : Type} (l : list A) i x :
  nth_error l i = Some x -> Py.getitem l i = Ok x.
Proof. unfold Py.getitem. now intros ->. Qed.

Lemma triple_item_inv item :
  triple_item item = true ->
  exists c r p, item = [c; r; p]
    /\ is_corr c = true /\ is_role r = true /\ is_plan p = true.
Proof.
  destruct item as [|c [|r [|p [|x t]]]]; simpl; try discriminate.
  rewrite !andb_true_iff. intros [[Hc Hr] Hp]. now exists c, r, p.
Qed.

(** The loop of the sibling takes items of one correlation line, one role
    line and one plan line. *)
Lemma sibling_groups_loop_advance its : forall lines i groups fuel rest,
  skipn i lines = concat its ++ rest ->
  forallb triple_item its = true ->
  Split_xpnfile.groups_loop (length its + fuel) lines i groups
  = Split_xpnfile.groups_loop fuel lines (i + length (concat its))
                              (groups ++ its).
Proof.
  induction its as [|it its IH]; intros lines i groups fuel rest Hs Hv.
  - simpl. now rewrite Nat.add_0_r, app_nil_r.
  - simpl in Hv. apply andb_true_iff in Hv as [Hit Hv].
    apply triple_item_inv in Hit as (c & r & p & -> & Hc & Hr & Hp).
    simpl in Hs. apply at_skipn in Hs as [Hn0 Hs].
    apply at_skipn in Hs as [Hn1 Hs]. apply at_skipn in Hs as [Hn2 Hs].
    change (length ([c; r; p] :: its) + fuel) with (S (length its + fuel)).
    rewrite sibling_groups_loop_eq, Hn0, (at_footer_here _ _ _ Hn0),
      (corr_not_footer _ Hc), Hc, (getitem_at _ _ _ Hn1).
    cbv beta iota delta [bind negb]. rewrite Hr, (getitem_at _ _ _ Hn2).
    cbv beta iota. rewrite Hp.
    rewrite (IH lines _ (groups ++ [[c; r; p]]) fuel rest Hs Hv).
    rewrite <- app_assoc. simpl. f_equal. lia.
Qed.

Lemma triples_fit (its : list (list string)) :
  forallb triple_item its = true -> length its <= length (concat its).
Proof.
  induction its as [|it its IH]; simpl; auto.
  rewrite andb_true_iff. intros [Hv Hs].
  apply triple_item_inv in Hv as (c & r & p & -> & _).
  simpl. specialize (IH Hs). lia.
Qed.

Lemma sibling_fuel_split lines i (its : list (list string)) rest :
  skipn i lines = concat its ++ rest ->
  forallb triple_item its = true ->
  S (length lines) = length its + S (length lines - length its).
Proof.
  intros Hs Hv. pose proof (triples_fit its Hv) as L.
  pose proof (skipn_length_le lines i) as L'.
  rewrite Hs, length_app in L'. lia.
Qed.

(** Items of three lines followed by a footer line: the sibling returns
    them. *)
Lemma sibling_parse_triples lines start its f rest :
  skipn start lines = concat its ++ f :: rest ->
  forallb triple_item its = true -> is_footer f = true ->
  Split_xpnfile.parse_groups_and_footer lines start = Ok (its, f).
Proof.
  intros Hs Hv Hf. unfold Split_xpnfile.parse_groups_and_footer.
  rewrite (sibling_fuel_split _ _ _ _ Hs Hv),
    (sibling_groups_loop_advance its lines start [] _ _ Hs Hv).
  apply skipn_after in Hs. apply at_skipn in Hs as [Hn _].
  rewrite sibling_groups_loop_eq, Hn, (at_footer_here _ _ _ Hn), Hf.
  unfold bind. now rewrite Hn.
Qed.

(** Items of three lines up to the end of the input: the sibling misses
    the footer. *)
Lemma sibling_parse_triples_end lines start its :
  skipn start lines = concat its ->
  forallb triple_item its = true ->
  Split_xpnfile.parse_groups_and_footer lines start = Err MissingFooter.
Proof.
  intros Hs Hv. unfold Split_xpnfile.parse_groups_and_footer.
  rewrite <- (app_nil_r (concat its)) in Hs.
  rewrite (sibling_fuel_split _ _ _ _ Hs Hv),
    (sibling_groups_loop_advance its lines start [] _ _ Hs Hv).
  apply skipn_after in Hs. apply past_skipn in Hs.
  rewrite sibling_groups_loop_eq, Hs. unfold bind. now rewrite Hs.
Qed.


(** The fuel the sibling supplies to its loop is enough. *)
Lemma sibling_groups_loop_fuel fuel : forall lines i groups,
  length lines - i < fuel ->
  Split_xpnfile.groups_loop fuel lines i groups <> Err OutOfFuel.
Proof.
  induction fuel as [|fuel IH]; intros lines i groups Hf; [lia|].
  rewrite sibling_groups_loop_eq.
  destruct (nth_error lines i) as [l|] eqn:E; [|discriminate].
  assert (Hi : i < length lines) by (apply nth_error_Some; congruence).
  destruct (Split_File.at_footer lines i); [discriminate|].
  destruct (negb (is_corr l)); [discriminate|].
  unfold Py.getitem.
  destruct (nth_error lines (i + 1)) as [role|]; unfold bind at 1; [|discriminate].
  destruct (negb (is_role role)); [discriminate|].
  destruct (nth_error lines (i + 1 + 1)) as [plan|]; unfold bind at 1; [|discriminate].
  destruct (negb (is_plan plan)); [discriminate|].
  apply IH. lia.
Qed.

Lemma sibling_parse_total lines start :
  Split_xpnfile.parse_groups_and_footer lines start <> Err OutOfFuel.
Proof.
  unfold Split_xpnfile.parse_groups_and_footer.
  pose proof (sibling_groups_loop_fuel (S (length lines)) lines start []
                ltac:(lia)) as H.
  destruct (Split_xpnfile.groups_loop (S (length lines)) lines start [])
    as [[i gs]|e]; unfold bind.
  - destruct (nth_error lines i); discriminate.
  - congruence.
Qed.


(** ** The footer line the writer composes *)

Lemma split_fields_no_sep sep s : forall x,
  In x (Py.split sep s) -> has_char sep x = false.
Proof.
  induction s as [|c s IH]; simpl; intros x Hx.
  - destruct Hx as [<-|[]]. reflexivity.
  - destruct (Ascii.eqb c sep) eqn:Ec.
    + destruct Hx as [<-|Hx]; [reflexivity | now apply IH].
    + destruct (Py.split sep s) as [|p ps] eqn:Es.
      * destruct Hx as [<-|[]]. simpl. now rewrite Ec.
      * destruct Hx as [<-|Hx].
        -- simpl. rewrite Ec. apply IH. now left.
        -- apply IH. now right.
Qed.

Lemma split_plain sep a : has_char sep a = false -> Py.split sep a = [a].
Proof.
  induction a as [|c a IH]; simpl; [reflexivity|].
  rewrite orb_false_iff. intros [Hc Ha]. now rewrite Hc, (IH Ha).
Qed.

Lemma split_join sep a b :
  has_char sep a = false ->
  Py.split sep (a ++ String sep b) = a :: Py.split sep b.
Proof.
  induction a as [|c a IH]; simpl.
  - intros _. now rewrite Ascii.eqb_refl.
  - rewrite orb_false_iff. intros [Hc Ha]. now rewrite Hc, (IH Ha).
Qed.

Lemma uint_no_pipe d : has_char pipe (NilEmpty.string_of_uint d) = false.
Proof. induction d; simpl; auto. Qed.

Lemma str_no_pipe n : has_char pipe (Py.str n) = false.
Proof. apply uint_no_pipe. Qed.

(** The job code taken from a header line holds no delimiter. *)
Lemma job_code_no_pipe job code :
  Split_File.extract_job_code job = Ok code -> has_char pipe code = false.
Proof.
  unfold Split_File.extract_job_code.
  destruct (length (Py.split pipe job) <? 2)%nat; [discriminate|].
  destruct (nth_error (Py.split pipe job) 1) as [c|] eqn:E; [|discriminate].
  intros [= <-]. apply nth_error_In in E.
  exact (split_fields_no_sep _ _ _ E).
Qed.

(** The footer line of a chunk splits into the tag, the job code and the
    count. *)
Lemma split_footer_of code n :
  has_char pipe code = false ->
  Py.split pipe (footer_of code n) = ["FOOTER"; code; Py.str n].
Proof.
  intros Hc. unfold footer_of.
  change ("FOOTER|" ++ code ++ "|" ++ Py.str n)%string
    with ("FOOTER" ++ String pipe (code ++ String pipe (Py.str n)))%string.
  rewrite split_join by reflexivity. rewrite split_join by assumption.
  now rewrite split_plain by apply str_no_pipe.
Qed.

(** The footer line of a chunk passes [validate_footer] without a warning,
    for an [int] that reads back what [str] prints. *)
Lemma validate_footer_of py_int code n :
  (forall k, py_int (Py.str k) = Some (Z.of_nat k)) ->
  has_char pipe code = false ->
  Split_File.validate_footer py_int (footer_of code n) code n = Ok None.
Proof.
  intros Hi Hc. unfold Split_File.validate_footer.
  rewrite split_footer_of by assumption.
  now rewrite String.eqb_refl, Hi, Z.eqb_refl.
Qed.

(** ** The sample integer parser reads back what [str] prints *)

Lemma digits_value_cons c s acc :
  digits_value (String c s) acc
  = if ((48 <=? nat_of_ascii c) && (nat_of_ascii c <=? 57))%nat
    then digits_value s (10 * acc + Z.of_nat (nat_of_ascii c - 48))%Z
    else None.
Proof. reflexivity. Qed.

Lemma digits_value_uint d : forall acc : nat,
  digits_value (NilEmpty.string_of_uint d) (Z.of_nat acc)
  = Some (Z.of_nat (Nat.of_uint_acc d acc)).
Proof.
  induction d; intros acc; cbn [NilEmpty.string_of_uint Nat.of_uint_acc];
    [reflexivity|..];
    rewrite digits_value_cons;
    match goal with |- context [nat_of_ascii ?c] =>
      let k := eval vm_compute in (nat_of_ascii c) in
      change (nat_of_ascii c) with k
    end;
    cbn [Nat.leb andb Nat.sub]; rewrite <- IHd; f_equal;
    rewrite Nat.tail_mul_spec; lia.
Qed.

Lemma revapp_not_nil d : forall acc,
  acc <> Decimal.Nil -> Decimal.revapp d acc <> Decimal.Nil.
Proof. induction d; simpl; intros acc H; auto; apply IHd; discriminate. Qed.

Lemma to_little_uint_not_nil n : forall acc,
  acc <> Decimal.Nil -> Nat.to_little_uint n acc <> Decimal.Nil.
Proof.
  induction n as [|n IH]; simpl; intros acc H; auto.
  apply IH. destruct acc; discriminate.
Qed.

Lemma str_not_empty n : Py.str n <> EmptyString.
Proof.
  unfold Py.str, Nat.to_uint, Decimal.rev.
  pose proof (to_little_uint_not_nil n Decimal.zero ltac:(discriminate)) as H.
  destruct (Nat.to_little_uint n Decimal.zero) as [|d|d|d|d|d|d|d|d|d|d];
    [now elim H|..]; simpl;
    match goal with
    | |- NilEmpty.string_of_uint (Decimal.revapp ?d ?a) <> _ =>
        pose proof (revapp_not_nil d a ltac:(discriminate)) as H';
        destruct (Decimal.revapp d a); [now elim H'|..]; discriminate
    end.
Qed.

Lemma int_of_digits_str n : int_of_digits (Py.str n) = Some (Z.of_nat n).
Proof.
  unfold int_of_digits. pose proof (str_not_empty n) as H.
  destruct (Py.str n) as [|c t] eqn:E; [now elim H|]. rewrite <- E.
  unfold Py.str. change 0%Z with (Z.of_nat 0). rewrite digits_value_uint.
  change (Nat.of_uint_acc (Nat.to_uint n) 0) with (Nat.of_uint (Nat.to_uint n)).
  now rewrite DecimalNat.Unsigned.of_to.
Qed.

Lemma concat_flatten {A : Type} (l : list (list (list A))) :
  concat (map (@concat A) l) = concat (concat l).
Proof.
  induction l as [|x l IH]; simpl; [reflexivity|].
  now rewrite concat_app, IH.
Qed.

(** * The claims *)

(** C1.  For every document and every positive batch size, both writers
    write one file per chunk, in chunk order; the chunks concatenated give
    back the item sequence (nothing lost, repeated or moved); chunk k is the
    contiguous slice of the items that starts at item k * B; and the file of
    a chunk holds, between the header and metadata lines and the footer, the
    lines of its items in their order. *)
Theorem write_batches_preserves_items
    (prefix job : string) (metas : list string) (groups : list (list string))
    (b : Z) (code : string) (fs : FS) :
  (0 < b)%Z ->
  Split_File.write_batches prefix job metas groups b code fs
    = (fs ++ render_all prefix job metas code (chunks groups b), Ok tt)
  /\ Split_xpnfile.write_batches prefix job metas groups b code fs
    = (fs ++ render_all prefix job metas code (chunks groups b), Ok tt)
  /\ concat (chunks groups b) = groups
  /\ concat (map (@concat string) (chunks groups b)) = concat groups
  /\ forall k chunk,
       nth_error (chunks groups b) k = Some chunk ->
       chunk = firstn (Z.to_nat b) (skipn (k * Z.to_nat b) groups)
       /\ nth_error (render_all prefix job metas code (chunks groups b)) k
          = Some (render prefix job metas code (k + 1) chunk)
       /\ out_lines (render prefix job metas code (k + 1) chunk)
          = [job] ++ metas ++ concat chunk ++ [footer_of code (length chunk)].
Proof.
  intros Hb. split; [now apply write_batches_files|].
  split; [now apply sibling_write_batches_files|].
  split; [now apply concat_chunks|].
  split; [now rewrite concat_flatten, concat_chunks|].
  intros k chunk H. split; [now apply nth_chunk|].
  split; [|reflexivity]. now rewrite nth_render_all, H.
Qed.

Lemma write_batches_preserves_items_witness :
  (0 < 1)%Z
  /\ concat (chunks [["CLNT_CORR|1"; "CLNT_ROLE|r1"; "PLAN|p1"];
                     ["CLNT_CORR|2"; "CLNT_ROLE|r2"; "PLAN|p2"]] 1)
     = [["CLNT_CORR|1"; "CLNT_ROLE|r1"; "PLAN|p1"];
        ["CLNT_CORR|2"; "CLNT_ROLE|r2"; "PLAN|p2"]].
Proof.
  split; [lia|].
  exact (proj1 (proj2 (proj2
    (write_batches_preserves_items "output_file" "JOB|J1|x" ["META_A|y"]
       [["CLNT_CORR|1"; "CLNT_ROLE|r1"; "PLAN|p1"];
        ["CLNT_CORR|2"; "CLNT_ROLE|r2"; "PLAN|p2"]] 1 "J1" [] eq_refl)))).
Defined.

(** C2.  The lines of a valid document followed by a footer line parse, in
    Split_File.py, to the header line, the metadata lines, the items in
    their order and the footer line; and each file the writer emits for a
    valid document and a positive batch size parses, by the same parser, to
    the chunk it was written from, with a footer line that passes
    [validate_footer] without a warning when the job code is the one of
    the header line (for an [int] that reads back what [str] prints). *)
Theorem parse_serialize_roundtrip (d : Document) (footer : string) :
  valid_document d = true -> is_footer footer = true ->
  Split_File.parse_header_and_meta (serialize d footer)
    = Ok (header_line d, metadata_lines d, 1 + length (metadata_lines d))
  /\ Split_File.parse_groups_and_footer (serialize d footer)
       (1 + length (metadata_lines d))
     = Ok (items d, footer)
  /\ forall prefix b code fs k f,
       (0 < b)%Z ->
       nth_error (fst (Split_File.write_batches prefix (header_line d)
                         (metadata_lines d) (items d) b code fs))
                 (length fs + k) = Some f ->
       exists chunk,
         nth_error (chunks (items d) b) k = Some chunk
         /\ Split_File.parse_header_and_meta (out_lines f)
            = Ok (header_line d, metadata_lines d,
                  1 + length (metadata_lines d))
         /\ Split_File.parse_groups_and_footer (out_lines f)
              (1 + length (metadata_lines d))
            = Ok (chunk, footer_of code (length chunk))
         /\ forall py_int,
              (forall n, py_int (Py.str n) = Some (Z.of_nat n)) ->
              Split_File.extract_job_code (header_line d) = Ok code ->
              Split_File.validate_footer py_int
                (footer_of code (length chunk)) code (length chunk) = Ok None.
Proof.
  intros Hd Hf.
  destruct (parse_serialize d footer Hd Hf) as [H1 H2].
  split; [exact H1|]. split; [exact H2|].
  intros prefix b code fs k f Hb Hk.
  rewrite write_batches_files in Hk by assumption. simpl fst in Hk.
  rewrite nth_error_app2, Nat.add_comm, Nat.add_sub, nth_render_all in Hk by lia.
  destruct (nth_error (chunks (items d) b) k) as [chunk|] eqn:E; [|discriminate].
  simpl in Hk. injection Hk as <-. exists chunk. split; [reflexivity|].
  assert (Hc : valid_document (mkDocument (header_line d) (metadata_lines d) chunk) = true).
  { unfold valid_document in *. cbn [header_line metadata_lines items].
    rewrite !andb_true_iff in *. destruct Hd as [[[Hj Hn] Hm] Hv].
    repeat split; auto.
    rewrite (nth_chunk _ _ _ _ Hb E). now apply forallb_firstn_skipn. }
  destruct (parse_serialize _ _ Hc (footer_of_is_footer code (length chunk)))
    as [P1 P2].
  split; [exact P1|]. split; [exact P2|].
  intros py_int Hi He. apply validate_footer_of; [exact Hi|].
  exact (job_code_no_pipe _ _ He).
Qed.

Lemma parse_serialize_roundtrip_witness :
  valid_document
    (mkDocument "JOB|J1|x" ["META_A|y"]
       [["CLNT_CORR|1"; "PLAN|p1"; "CLNT_ROLE|r1"; "PLAN|q1"];
        ["CLNT_CORR|2"; "CLNT_ROLE|r2"; "PLAN|p2"]]) = true
  /\ is_footer "FOOTER|J1|2" = true
  /\ Split_File.parse_groups_and_footer
       ["JOB|J1|x"; "META_A|y";
        "CLNT_CORR|1"; "PLAN|p1"; "CLNT_ROLE|r1"; "PLAN|q1";
        "CLNT_CORR|2"; "CLNT_ROLE|r2"; "PLAN|p2"; "FOOTER|J1|2"] 2
     = Ok ([["CLNT_CORR|1"; "PLAN|p1"; "CLNT_ROLE|r1"; "PLAN|q1"];
            ["CLNT_CORR|2"; "CLNT_ROLE|r2"; "PLAN|p2"]], "FOOTER|J1|2").
Proof.
  split; [reflexivity|]. split; [reflexivity|].
  exact (proj1 (proj2
    (parse_serialize_roundtrip
       (mkDocument "JOB|J1|x" ["META_A|y"]
          [["CLNT_CORR|1"; "PLAN|p1"; "CLNT_ROLE|r1"; "PLAN|q1"];
           ["CLNT_CORR|2"; "CLNT_ROLE|r2"; "PLAN|p2"]])
       "FOOTER|J1|2" eq_refl eq_refl))).
Defined.

Lemma last_footer (pre : list string) (footer : string) :
  last (pre ++ [footer]) EmptyString = footer.
Proof. apply last_last. Qed.

(** C3.  In Split_File.py, for an input that parses and whose footer line
    carries the job code of the header and an integer count, whatever that
    declared count is: the run is not aborted (a declared count that is not
    the number of items only adds a warning), the files written are those
    of the chunks of the parsed items, and the footer line of each file is
    the job code joined with the number of items of its own chunk. *)
Theorem footer_counts_are_actual
    (ITEMS : Z) (prefix : string) (py_int : string -> option Z)
    (lines : list string) (fs : FS) (job : string) (metas : list string)
    (idx : nat) (groups : list (list string))
    (footer_line tag code count_str : string) (declared : Z) :
  Split_File.parse_header_and_meta lines = Ok (job, metas, idx) ->
  Split_File.parse_groups_and_footer lines idx = Ok (groups, footer_line) ->
  Split_File.extract_job_code job = Ok code ->
  Py.split pipe footer_line = [tag; code; count_str] ->
  py_int count_str = Some declared ->
  (0 < ITEMS)%Z ->
  Split_File.validate_footer py_int footer_line code (length groups)
    = Ok (if (declared =? Z.of_nat (length groups))%Z then None
          else Some (FooterCountMismatch declared (length groups)))
  /\ Split_File.main ITEMS prefix py_int lines fs
     = (fs ++ render_all prefix job metas code (chunks groups ITEMS),
        Ok (if (declared =? Z.of_nat (length groups))%Z then None
            else Some (FooterCountMismatch declared (length groups))))
  /\ forall k chunk,
       nth_error (chunks groups ITEMS) k = Some chunk ->
       nth_error (render_all prefix job metas code (chunks groups ITEMS)) k
         = Some (render prefix job metas code (k + 1) chunk)
       /\ last (out_lines (render prefix job metas code (k + 1) chunk))
               EmptyString
          = ("FOOTER|" ++ code ++ "|" ++ Py.str (length chunk))%string.
Proof.
  intros Hh Hg Hc Hs Hi Hb.
  assert (Hv : Split_File.validate_footer py_int footer_line code (length groups)
    = Ok (if (declared =? Z.of_nat (length groups))%Z then None
          else Some (FooterCountMismatch declared (length groups)))).
  { unfold Split_File.validate_footer. rewrite Hs, String.eqb_refl, Hi. simpl negb.
    now destruct (declared =? Z.of_nat (length groups))%Z. }
  split; [exact Hv|]. split.
  - unfold Split_File.main. rewrite Hh. cbv beta iota delta [bind].
    rewrite Hg. cbv beta iota. rewrite Hc, Hv.
    now rewrite write_batches_files by assumption.
  - intros k chunk H. split; [now rewrite nth_render_all, H|].
    unfold render, serialize. cbn [out_lines].
    rewrite !app_assoc. apply last_footer.
Qed.

Lemma footer_counts_are_actual_witness :
  Split_File.main 1 "output_file" int_of_digits
    ["JOB|J1|x"; "META_A|y"; "CLNT_CORR|1"; "CLNT_ROLE|r1"; "PLAN|p1";
     "CLNT_CORR|2"; "CLNT_ROLE|r2"; "PLAN|p2"; "FOOTER|J1|7"] []
  = ([] ++ render_all "output_file" "JOB|J1|x" ["META_A|y"] "J1"
             (chunks [["CLNT_CORR|1"; "CLNT_ROLE|r1"; "PLAN|p1"];
                      ["CLNT_CORR|2"; "CLNT_ROLE|r2"; "PLAN|p2"]] 1),
     Ok (Some (FooterCountMismatch 7 2))).
Proof.
  exact (proj1 (proj2
    (footer_counts_are_actual 1 "output_file" int_of_digits
       ["JOB|J1|x"; "META_A|y"; "CLNT_CORR|1"; "CLNT_ROLE|r1"; "PLAN|p1";
        "CLNT_CORR|2"; "CLNT_ROLE|r2"; "PLAN|p2"; "FOOTER|J1|7"] []
       "JOB|J1|x" ["META_A|y"] 2
       [["CLNT_CORR|1"; "CLNT_ROLE|r1"; "PLAN|p1"];
        ["CLNT_CORR|2"; "CLNT_ROLE|r2"; "PLAN|p2"]]
       "FOOTER|J1|7" "FOOTER" "J1" "7" 7
       eq_refl eq_refl eq_refl eq_refl eq_refl eq_refl))).
Defined.

Lemma ceil_div_bounds (total b : Z) :
  (0 <= total)%Z -> (0 < b)%Z ->
  (total <= ceil_div total b * b < total + b)%Z.
Proof.
  intros Ht Hb. split; [now apply ceil_div_covers|].
  unfold ceil_div. pose proof (Z.mul_div_le (total + b - 1) b Hb). lia.
Qed.

(** C4.  For T items and a positive batch size B, both writers write
    exactly ceil(T/B) files (the integer n with T <= n * B < T + B); every
    file but the last holds B items and the last holds T mod B items, or B
    when B divides T; and when B > T >= 1 there is one file, with all the
    items. *)
Theorem write_batches_file_count
    (prefix job : string) (metas : list string) (groups : list (list string))
    (b : Z) (code : string) (fs : FS) :
  (0 < b)%Z ->
  let total := Z.of_nat (length groups) in
  let n := ceil_div total b in
  (total <= n * b < total + b)%Z
  /\ Split_File.write_batches prefix job metas groups b code fs
     = (fs ++ render_all prefix job metas code (chunks groups b), Ok tt)
  /\ Split_xpnfile.write_batches prefix job metas groups b code fs
     = (fs ++ render_all prefix job metas code (chunks groups b), Ok tt)
  /\ length (render_all prefix job metas code (chunks groups b)) = Z.to_nat n
  /\ length (chunks groups b) = Z.to_nat n
  /\ (forall k chunk,
        nth_error (chunks groups b) k = Some chunk ->
        Z.of_nat (length chunk)
        = if (k + 1 <? Z.to_nat n)%nat then b
          else if (total mod b =? 0)%Z then b else (total mod b)%Z)
  /\ ((1 <= total < b)%Z ->
      chunks groups b = [groups]
      /\ render_all prefix job metas code (chunks groups b)
         = [render prefix job metas code 1 groups]).
Proof.
  intros Hb total n.
  split; [apply ceil_div_bounds; unfold total; lia|].
  split; [now apply write_batches_files|].
  split; [now apply sibling_write_batches_files|].
  split; [now rewrite length_render_all, length_chunks|].
  split; [now apply length_chunks|].
  split.
  - intros k chunk H. rewrite (chunk_size groups b k chunk Hb H).
    now rewrite length_chunks.
  - intros Ht. rewrite (chunks_single groups b Ht). now split.
Qed.

Lemma write_batches_file_count_witness :
  (0 < 2)%Z
  /\ length (chunks [["CLNT_CORR|1"; "CLNT_ROLE|r1"; "PLAN|p1"];
                     ["CLNT_CORR|2"; "CLNT_ROLE|r2"; "PLAN|p2"];
                     ["CLNT_CORR|3"; "CLNT_ROLE|r3"; "PLAN|p3"]] 2)
     = Z.to_nat (ceil_div 3 2).
Proof.
  split; [lia|].
  exact (proj1 (proj2 (proj2 (proj2 (proj2
    (write_batches_file_count "output_file" "JOB|J1|x" ["META_A|y"]
       [["CLNT_CORR|1"; "CLNT_ROLE|r1"; "PLAN|p1"];
        ["CLNT_CORR|2"; "CLNT_ROLE|r2"; "PLAN|p2"];
        ["CLNT_CORR|3"; "CLNT_ROLE|r3"; "PLAN|p3"]] 2 "J1" [] eq_refl)))))).
Defined.


Lemma groups_loop_exit fuel : forall lines start groups i gs,
  Split_File.groups_loop fuel lines start groups = Ok (i, gs) ->
  length lines <= i \/ Split_File.at_footer lines i = true.
Proof.
  induction fuel as [|fuel IH]; intros lines start groups i gs H; [discriminate|].
  rewrite groups_loop_eq in H.
  destruct (nth_error lines start) as [l|] eqn:E.
  - destruct (Split_File.at_footer lines start) eqn:F.
    + injection H as <- <-. now right.
    + destruct (negb (is_corr l)); [discriminate|].
      destruct (Split_File.item_loop _ lines (start + 1) [l] 0 0)
        as [[[[i' il] rc] pc]|e]; unfold bind in H; [|discriminate].
      destruct ((rc =? 0)%nat || (pc =? 0)%nat); [discriminate|].
      exact (IH _ _ _ _ _ H).
  - injection H as <- <-. left. now apply nth_error_None.
Qed.

Lemma groups_loop_halt fuel lines i groups :
  length lines <= i \/ Split_File.at_footer lines i = true ->
  Split_File.groups_loop (S fuel) lines i groups = Ok (i, groups).
Proof.
  intros [H|H]; rewrite groups_loop_eq.
  - apply nth_error_None in H. now rewrite H.
  - destruct (nth_error lines i); [now rewrite H | reflexivity].
Qed.

Lemma no_footer_app (a b : list string) :
  forallb (fun l => negb (is_footer l)) (a ++ b) = true ->
  forallb (fun l => negb (is_footer l)) b = true.
Proof. rewrite forallb_app, andb_true_iff. tauto. Qed.

(** C6 (amended).  In Split_File.py the item loop stops, without an error,
    exactly at a footer-tagged line or at the end of the input; the parser
    fails with MissingFooter exactly when the lines from [start] on are
    complete items up to the end of the input; when no footer-tagged line
    follows it always fails, with MissingFooter or with the diagnostic of
    the first item that is not complete (ExpectedCorrelation,
    UnexpectedLine, IncompleteItem), and on no input does it index a line
    outside the list.  The sibling fails with MissingFooter when the lines
    from [start] on are items of three lines up to the end of the input. *)
Theorem missing_footer_exactly (lines : list string) (start : nat) :
  (forall fuel groups i gs,
     Split_File.groups_loop fuel lines start groups = Ok (i, gs) ->
     length lines <= i \/ Split_File.at_footer lines i = true)
  /\ (forall fuel groups i,
        length lines <= i \/ Split_File.at_footer lines i = true ->
        Split_File.groups_loop (S fuel) lines i groups = Ok (i, groups))
  /\ (Split_File.parse_groups_and_footer lines start = Err MissingFooter
      <-> exists its,
            skipn start lines = concat its /\ forallb valid_item its = true)
  /\ (forallb (fun l => negb (is_footer l)) (skipn start lines) = true ->
      exists e,
        Split_File.parse_groups_and_footer lines start = Err e
        /\ (e = MissingFooter
            \/ (exists n x, e = ExpectedCorrelation n x)
            \/ (exists n x, e = UnexpectedLine n x)
            \/ (exists c r p, e = IncompleteItem c r p)))
  /\ Split_File.parse_groups_and_footer lines start <> Err IndexError
  /\ Split_File.parse_groups_and_footer lines start <> Err OutOfFuel
  /\ (forall its,
        skipn start lines = concat its -> forallb triple_item its = true ->
        Split_xpnfile.parse_groups_and_footer lines start = Err MissingFooter).
Proof.
  assert (Hreads : exists r, reads start (skipn start lines) r
                             /\ Split_File.parse_groups_and_footer lines start = r).
  { destruct (reads_total (skipn start lines) start) as [r Hr].
    exists r. split; [exact Hr | now apply reads_sound]. }
  split; [intros fuel groups i gs; apply groups_loop_exit|].
  split; [intros fuel groups i; apply groups_loop_halt|].
  split; [split|split; [|split; [|split]]].
  - intros H. apply parse_groups_and_footer_reads in H.
    remember (skipn start lines) as suf eqn:Hs.
    remember (Err MissingFooter) as res eqn:Hr.
    destruct H; try discriminate. now exists its.
  - intros (its & Hs & Hv). apply reads_sound. rewrite Hs. now apply reads_end.
  - intros Hn. destruct Hreads as (r & Hr & ->).
    remember (skipn start lines) as suf eqn:Hs.
    destruct Hr as [its Hv | its f rest Hv Hf | x rest Hf Hc
                   | its c body x rest Hv Hc Hm Hx Hst
                   | its c body rest Hv Hc Hm He Hz].
    + eexists; split; [reflexivity|]. now left.
    + apply no_footer_app in Hn. simpl in Hn. rewrite Hf in Hn. discriminate.
    + eexists; split; [reflexivity|]. right; left. eauto.
    + eexists; split; [reflexivity|]. right; right; left. eauto.
    + eexists; split; [reflexivity|]. right; right; right. eauto.
  - destruct Hreads as (r & Hr & ->). destruct Hr; discriminate.
  - destruct Hreads as (r & Hr & ->). destruct Hr; discriminate.
  - intros its. apply sibling_parse_triples_end.
Qed.

(** An input that ends inside an item, without a footer line: Split_File.py
    reports the incomplete item, not the missing footer, and the sibling
    reads past the end of the list. *)
Lemma truncated_item_is_not_missing_footer :
  forallb (fun l => negb (is_footer l))
          ["JOB|J1|x"; "META_A|y"; "CLNT_CORR|1"] = true
  /\ Split_File.parse_groups_and_footer
       ["JOB|J1|x"; "META_A|y"; "CLNT_CORR|1"] 2
     = Err (IncompleteItem "CLNT_CORR|1" 0 0)
  /\ Split_xpnfile.parse_groups_and_footer
       ["JOB|J1|x"; "META_A|y"; "CLNT_CORR|1"] 2
     = Err IndexError.
Proof. repeat split. Qed.




Lemma write_batches_guard prefix job metas groups b code fs :
  (b <= 0)%Z ->
  Split_File.write_batches prefix job metas groups b code fs
  = (fs, Err InvalidBatchSize).
Proof.
  intros Hb. unfold Split_File.write_batches.
  apply Z.leb_le in Hb. now rewrite Hb.
Qed.

(** C9.  The writer of Split_File.py refuses every batch size B <= 0
    before it writes anything, and no batch size B >= 1.  The writer of the
    sibling has no such test: with B = -1 it writes no file and ends well,
    and with B = 0 it stops on the ValueError of [range]. *)
Theorem sibling_write_batches_unguarded :
  Split_xpnfile.write_batches "output_file" "JOB|J1|x" ["META_A|y"]
    [["CLNT_CORR|1"; "CLNT_ROLE|r1"; "PLAN|p1"];
     ["CLNT_CORR|2"; "CLNT_ROLE|r2"; "PLAN|p2"]] (-1) "J1" []
  = ([], Ok tt)
  /\ Split_xpnfile.write_batches "output_file" "JOB|J1|x" ["META_A|y"]
       [["CLNT_CORR|1"; "CLNT_ROLE|r1"; "PLAN|p1"];
        ["CLNT_CORR|2"; "CLNT_ROLE|r2"; "PLAN|p2"]] 0 "J1" []
     = ([], Err RangeStepZero)
  /\ (forall prefix job metas groups b code fs,
        (b <= 0)%Z ->
        Split_File.write_batches prefix job metas groups b code fs
        = (fs, Err InvalidBatchSize))
  /\ (forall prefix job metas groups b code fs,
        (1 <= b)%Z ->
        snd (Split_File.write_batches prefix job metas groups b code fs)
        = Ok tt
        /\ snd (Split_xpnfile.write_batches prefix job metas groups b code fs)
           = Ok tt).
Proof.
  split; [reflexivity|]. split; [reflexivity|].
  split; [exact write_batches_guard|].
  intros prefix job metas groups b code fs Hb.
  now rewrite write_batches_files, sibling_write_batches_files by lia.
Qed.

(** C10.  A line that passes the header test splits into at least two
    fields, so both [extract_job_code] return its second field: the error
    branch of Split_File.py is not taken and the index of the sibling is
    inside the list. *)
Theorem header_has_job_code (job_line : string) :
  is_header job_line = true ->
  2 <= length (Py.split pipe job_line)
  /\ exists code,
       nth_error (Py.split pipe job_line) 1 = Some code
       /\ Split_File.extract_job_code job_line = Ok code
       /\ Split_xpnfile.extract_job_code job_line = Ok code.
Proof.
  intros H. destruct (header_fields job_line H) as (code & more & E).
  unfold Split_File.extract_job_code, Split_xpnfile.extract_job_code, Py.getitem.
  rewrite E. simpl. split; [lia|]. now exists code.
Qed.

Lemma header_has_job_code_witness :
  is_header "JOB|J1|x" = true
  /\ 2 <= length (Py.split pipe "JOB|J1|x")
  /\ exists code,
       nth_error (Py.split pipe "JOB|J1|x") 1 = Some code
       /\ Split_File.extract_job_code "JOB|J1|x" = Ok code
       /\ Split_xpnfile.extract_job_code "JOB|J1|x" = Ok code.
Proof.
  split; [reflexivity|]. exact (header_has_job_code "JOB|J1|x" eq_refl).
Defined.

(** ** The run of Split_File.py and the job code of the footer *)

Lemma parse_header_and_meta_errors lines e :
  Split_File.parse_header_and_meta lines = Err e ->
  e = EmptyInput \/ e = MalformedHeader \/ e = MissingMetadata.
Proof.
  destruct lines as [|job rest].
  - intros [= <-]. now left.
  - destruct (is_header job) eqn:Hj.
    + rewrite parse_header_and_meta_run by assumption.
      destruct (leading_meta rest); [|discriminate].
      intros [= <-]. now right; right.
    + unfold Split_File.parse_header_and_meta.
      change (Py.startswith job "JOB|") with (is_header job). rewrite Hj.
      intros [= <-]. now right; left.
Qed.

Lemma parse_groups_and_footer_errors lines start e :
  Split_File.parse_groups_and_footer lines start = Err e ->
  e = MissingFooter
  \/ (exists n x, e = ExpectedCorrelation n x)
  \/ (exists n x, e = UnexpectedLine n x)
  \/ (exists c r p, e = IncompleteItem c r p).
Proof.
  intros H. apply parse_groups_and_footer_reads in H.
  remember (skipn start lines) as suf eqn:Hs.
  remember (Err e) as res eqn:Hr.
  destruct H; try discriminate; injection Hr as <-.
  - now left.
  - right; left. eauto.
  - right; right; left. eauto.
  - right; right; right. eauto.
Qed.

Lemma extract_job_code_errors job e :
  Split_File.extract_job_code job = Err e ->
  e = JobLineMalformed \/ e = IndexError.
Proof.
  unfold Split_File.extract_job_code.
  destruct (length (Py.split pipe job) <? 2)%nat; [intros [= <-]; now left|].
  destruct (nth_error (Py.split pipe job) 1); [discriminate|].
  intros [= <-]. now right.
Qed.

Lemma string_eqb_false (a b : string) : String.eqb a b = false <-> a <> b.
Proof.
  destruct (String.eqb_spec a b) as [E|N]; split; congruence.
Qed.

(** [validate_footer] reports a job mismatch exactly on a footer line of
    three fields whose second field is not the expected job code. *)
Lemma validate_footer_mismatch py_int footer_line code total a b :
  Split_File.validate_footer py_int footer_line code total
    = Err (FooterJobMismatch a b)
  <-> exists tag count_str,
        Py.split pipe footer_line = [tag; a; count_str] /\ a <> code /\ b = code.
Proof.
  unfold Split_File.validate_footer.
  destruct (Py.split pipe footer_line) as [|t [|j [|c [|x y]]]].
  1-3, 5: split; [discriminate | intros (tag & cnt & E & _); discriminate].
  destruct (String.eqb j code) eqn:Ej; simpl.
  - apply String.eqb_eq in Ej. subst j. split.
    + destruct (py_int c) as [v|]; [|discriminate].
      destruct (negb (v =? Z.of_nat total)%Z); discriminate.
    + intros (tag & cnt & [= -> -> ->] & N & _). now elim N.
  - apply string_eqb_false in Ej. split.
    + intros [= <- <-]. now exists t, c.
    + intros (tag & cnt & [= -> -> ->] & _ & ->). reflexivity.
Qed.

(** A footer line that does not have three fields is malformed, whatever
    its fields are. *)
Lemma validate_footer_malformed py_int footer_line code total :
  length (Py.split pipe footer_line) <> 3 ->
  Split_File.validate_footer py_int footer_line code total = Err MalformedFooter.
Proof.
  unfold Split_File.validate_footer.
  destruct (Py.split pipe footer_line) as [|t [|j [|c [|x y]]]]; simpl;
    intros H; try reflexivity. now elim H.
Qed.

Lemma write_batches_outcome prefix job metas groups b code fs :
  snd (Split_File.write_batches prefix job metas groups b code fs) = Ok tt
  \/ snd (Split_File.write_batches prefix job metas groups b code fs)
     = Err InvalidBatchSize.
Proof.
  destruct (Z.le_gt_cases b 0) as [H|H].
  - right. now rewrite write_batches_guard.
  - left. now rewrite write_batches_files by lia.
Qed.

(** X22.  In Split_File.py the run fails with FooterJobMismatch,
    citing the job-code field [a] of the footer and the job code [b] of the
    header, exactly when the header, the metadata and the items parse, the
    footer line splits into exactly three fields, and [a] differs from [b];
    nothing is written then.  A footer line with another number of fields
    fails with MalformedFooter, whatever its job-code field is. *)
Theorem footer_job_mismatch_exactly
    (ITEMS : Z) (prefix : string) (py_int : string -> option Z)
    (lines : list string) (fs : FS) (a b : string) :
  ((exists job metas idx groups footer_line tag count_str,
      Split_File.parse_header_and_meta lines = Ok (job, metas, idx)
      /\ Split_File.parse_groups_and_footer lines idx = Ok (groups, footer_line)
      /\ Split_File.extract_job_code job = Ok b
      /\ Py.split pipe footer_line = [tag; a; count_str]
      /\ a <> b)
   <-> snd (Split_File.main ITEMS prefix py_int lines fs)
       = Err (FooterJobMismatch a b))
  /\ (snd (Split_File.main ITEMS prefix py_int lines fs)
        = Err (FooterJobMismatch a b) ->
      fst (Split_File.main ITEMS prefix py_int lines fs) = fs)
  /\ (forall job metas idx groups footer_line code,
        Split_File.parse_header_and_meta lines = Ok (job, metas, idx) ->
        Split_File.parse_groups_and_footer lines idx = Ok (groups, footer_line) ->
        Split_File.extract_job_code job = Ok code ->
        length (Py.split pipe footer_line) <> 3 ->
        Split_File.main ITEMS prefix py_int lines fs = (fs, Err MalformedFooter)).
Proof.
  assert (Hback : snd (Split_File.main ITEMS prefix py_int lines fs)
                    = Err (FooterJobMismatch a b) ->
    fst (Split_File.main ITEMS prefix py_int lines fs) = fs
    /\ exists job metas idx groups footer_line tag count_str,
      Split_File.parse_header_and_meta lines = Ok (job, metas, idx)
      /\ Split_File.parse_groups_and_footer lines idx = Ok (groups, footer_line)
      /\ Split_File.extract_job_code job = Ok b
      /\ Py.split pipe footer_line = [tag; a; count_str]
      /\ a <> b).
  { unfold Split_File.main.
    destruct (Split_File.parse_header_and_meta lines) as [[[job metas] idx]|e] eqn:Hh;
      cbv beta iota delta [bind].
    2:{ simpl. intros [= ->].
        destruct (parse_header_and_meta_errors _ _ Hh) as [E|[E|E]]; discriminate. }
    destruct (Split_File.parse_groups_and_footer lines idx) as [[groups footer]|e] eqn:Hg;
      cbv beta iota.
    2:{ simpl. intros [= ->].
        destruct (parse_groups_and_footer_errors _ _ _ Hg)
          as [E|[(n & x & E)|[(n & x & E)|(c & r & p & E)]]]; discriminate. }
    destruct (Split_File.extract_job_code job) as [code|e] eqn:Hc.
    2:{ simpl. intros [= ->].
        destruct (extract_job_code_errors _ _ Hc) as [E|E]; discriminate. }
    destruct (Split_File.validate_footer py_int footer code (length groups))
      as [w|e] eqn:Hv.
    - destruct (write_batches_outcome prefix job metas groups ITEMS code fs) as [E|E];
        destruct (Split_File.write_batches prefix job metas groups ITEMS code fs)
          as [fs' [u|e]]; simpl in *; intros; congruence.
    - simpl. intros [= ->]. split; [reflexivity|].
      apply validate_footer_mismatch in Hv as (tag & cnt & Hs & Hn & ->).
      now exists job, metas, idx, groups, footer, tag, cnt. }
  split; [split|split].
  - intros (job & metas & idx & groups & footer & tag & cnt & Hh & Hg & Hc & Hs & Hn).
    unfold Split_File.main. rewrite Hh. cbv beta iota delta [bind].
    rewrite Hg. cbv beta iota. rewrite Hc.
    assert (Hv : Split_File.validate_footer py_int footer b (length groups)
                 = Err (FooterJobMismatch a b)).
    { apply validate_footer_mismatch. now exists tag, cnt. }
    now rewrite Hv.
  - intros H. exact (proj2 (Hback H)).
  - intros H. exact (proj1 (Hback H)).
  - intros job metas idx groups footer code Hh Hg Hc Hl.
    unfold Split_File.main. rewrite Hh. cbv beta iota delta [bind].
    rewrite Hg. cbv beta iota. rewrite Hc.
    now rewrite validate_footer_malformed.
Qed.


(** * Further properties of the code *)

(** ** Split_File.parse_groups_and_footer: what it returns and what it
    cites *)

Lemma reads_ok_inv start suf groups footer :
  reads start suf (Ok (groups, footer)) ->
  exists rest,
    suf = concat groups ++ footer :: rest
    /\ forallb valid_item groups = true /\ is_footer footer = true.
Proof.
  intros H. remember (Ok (groups, footer)) as res eqn:Hr.
  destruct H; try discriminate. injection Hr as <- <-. now exists rest.
Qed.

Lemma parse_ok_shape lines start groups footer :
  Split_File.parse_groups_and_footer lines start = Ok (groups, footer)
  <-> exists rest,
        skipn start lines = concat groups ++ footer :: rest
        /\ forallb valid_item groups = true /\ is_footer footer = true.
Proof.
  split.
  - intros H. apply parse_groups_and_footer_reads in H.
    exact (reads_ok_inv _ _ _ _ H).
  - intros (rest & Hs & Hv & Hf). apply reads_sound. rewrite Hs.
    now apply reads_footer.
Qed.

(** X1.  The item parser of Split_File.py succeeds exactly on complete
    items followed by a footer-tagged line: what it returns are those
    items, each a correlation line with at least one role and one plan
    line, and that footer line; whatever follows the footer line has no
    part in it. *)
Theorem parse_success_exactly (lines : list string) (start : nat)
    (groups : list (list string)) (footer : string) :
  Split_File.parse_groups_and_footer lines start = Ok (groups, footer)
  <-> exists rest,
        skipn start lines = concat groups ++ footer :: rest
        /\ forallb valid_item groups = true /\ is_footer footer = true.
Proof.
  split.
  - intros H. apply parse_groups_and_footer_reads in H.
    remember (skipn start lines) as suf eqn:Hs.
    remember (Ok (groups, footer)) as res eqn:Hr.
    destruct H as [| its f rest Hv Hf | | |]; try discriminate.
    injection Hr as <- <-. now exists rest.
  - intros (rest & Hs & Hv & Hf). apply reads_sound. rewrite Hs.
    now apply reads_footer.
Qed.

Lemma skipn_nonempty_lt {A : Type} (l : list A) i x r :
  skipn i l = x :: r -> i < length l.
Proof.
  intros H. apply at_skipn in H as [Hn _]. apply nth_error_Some. congruence.
Qed.

(** X2.  The lines after the first footer-tagged line are not read: the
    footer line is the line at the index the items end at, and the input
    cut after it, followed by any other lines, parses to the same items
    and footer. *)
Theorem lines_after_footer_ignored (lines : list string) (start : nat)
    (groups : list (list string)) (footer : string) (others : list string) :
  Split_File.parse_groups_and_footer lines start = Ok (groups, footer) ->
  nth_error lines (start + length (concat groups)) = Some footer
  /\ Split_File.parse_groups_and_footer
       (firstn (start + length (concat groups) + 1) lines ++ others) start
     = Ok (groups, footer).
Proof.
  intros H. apply parse_ok_shape in H as (rest & Hs & Hv & Hf).
  pose proof (skipn_after _ _ _ _ Hs) as Hs'.
  split; [exact (proj1 (at_skipn _ _ _ _ Hs'))|].
  assert (Hlt : start <= length lines).
  { destruct (concat groups ++ footer :: rest) as [|x r] eqn:E.
    - destruct (concat groups); discriminate.
    - apply skipn_nonempty_lt in Hs. lia. }
  assert (Hl : lines = (firstn start lines ++ concat groups ++ [footer]) ++ rest).
  { rewrite <- !app_assoc. simpl. rewrite <- Hs. symmetry. apply firstn_skipn. }
  assert (Hp : length (firstn start lines) = start)
    by (rewrite length_firstn; lia).
  remember (firstn start lines) as pre eqn:Hpre. clear Hpre Hs Hs'.
  assert (Hlen : start + length (concat groups) + 1
                 = length (pre ++ concat groups ++ [footer]) + 0).
  { rewrite !length_app. simpl. lia. }
  rewrite Hlen, Hl, firstn_app_2. simpl firstn.
  rewrite app_nil_r. apply parse_ok_shape. exists others.
  split; [|now split].
  rewrite <- !app_assoc. simpl. rewrite <- Hp.
  exact (skipn_after (pre ++ concat groups ++ footer :: others) pre _ 0 eq_refl).
Qed.

Lemma lines_after_footer_ignored_witness :
  Split_File.parse_groups_and_footer
    (firstn (2 + length (concat [["CLNT_CORR|1"; "CLNT_ROLE|r1"; "PLAN|p1"]]) + 1)
            ["JOB|J1|x"; "META_A|y"; "CLNT_CORR|1"; "CLNT_ROLE|r1"; "PLAN|p1";
             "FOOTER|J1|1"; "CLNT_CORR|9"]
     ++ ["anything"; "FOOTER|J2|5"]) 2
  = Ok ([["CLNT_CORR|1"; "CLNT_ROLE|r1"; "PLAN|p1"]], "FOOTER|J1|1").
Proof.
  exact (proj2
    (lines_after_footer_ignored
       ["JOB|J1|x"; "META_A|y"; "CLNT_CORR|1"; "CLNT_ROLE|r1"; "PLAN|p1";
        "FOOTER|J1|1"; "CLNT_CORR|9"] 2
       [["CLNT_CORR|1"; "CLNT_ROLE|r1"; "PLAN|p1"]] "FOOTER|J1|1"
       ["anything"; "FOOTER|J2|5"] eq_refl)).
Defined.

(** X3.  The diagnostic "Expected 'CLNT_CORR|'" can only be about the line
    parsing starts at: it is raised exactly when that line exists and is
    neither footer-tagged nor correlation-tagged, and cites that line and
    its number.  Past the first item no line gets it: a line that is not a
    correlation line is then read as part of the item before it. *)
Theorem expected_correlation_exactly (lines : list string) (start n : nat)
    (x : string) :
  Split_File.parse_groups_and_footer lines start
    = Err (ExpectedCorrelation n x)
  <-> nth_error lines start = Some x
      /\ is_footer x = false /\ is_corr x = false /\ n = start + 1.
Proof.
  split.
  - intros H. apply parse_groups_and_footer_reads in H.
    remember (skipn start lines) as suf eqn:Hs.
    remember (Err (ExpectedCorrelation n x)) as res eqn:Hr.
    destruct H; try discriminate. injection Hr as <- <-.
    symmetry in Hs. apply at_skipn in Hs as [Hn _]. now repeat split.
  - intros (Hn & Hf & Hc & ->). apply reads_sound.
    rewrite (skipn_at _ _ _ Hn). now apply reads_not_corr.
Qed.

(** X4.  The diagnostics of the item parser point into the input: an
    UnexpectedLine cites the line that stands at the line number it gives,
    a line after the correlation line of its item that is neither a role
    nor a plan line, nor a footer or correlation line; an IncompleteItem
    cites a correlation-tagged line of the input at or after the start. *)
Theorem diagnostics_cite_input (lines : list string) (start : nat) :
  (forall n x,
     Split_File.parse_groups_and_footer lines start = Err (UnexpectedLine n x) ->
     start + 2 <= n /\ nth_error lines (n - 1) = Some x
     /\ is_member x = false /\ is_stop x = false)
  /\ (forall c r p,
        Split_File.parse_groups_and_footer lines start
          = Err (IncompleteItem c r p) ->
        exists i, start <= i /\ nth_error lines i = Some c
                  /\ is_corr c = true).
Proof.
  split.
  - intros n x H. apply parse_groups_and_footer_reads in H.
    remember (skipn start lines) as suf eqn:Hs.
    remember (Err (UnexpectedLine n x)) as res eqn:Hr.
    destruct H as [| | | its c body y rest Hv Hc Hm Hx Hst |]; try discriminate.
    injection Hr as <- <-. symmetry in Hs.
    rewrite app_assoc in Hs. apply skipn_after in Hs.
    apply at_skipn in Hs as [Hn _]. rewrite length_app in Hn. simpl in Hn.
    split; [lia|]. split; [|now split].
    rewrite <- Hn. f_equal. lia.
  - intros c r p H. apply parse_groups_and_footer_reads in H.
    remember (skipn start lines) as suf eqn:Hs.
    remember (Err (IncompleteItem c r p)) as res eqn:Hr.
    destruct H as [| | | | its c' body rest Hv Hc Hm He Hz]; try discriminate.
    injection Hr as <- _ _. symmetry in Hs.
    apply skipn_after in Hs. apply at_skipn in Hs as [Hn _].
    exists (start + length (concat its)). split; [lia|]. now split.
Qed.

(** X5.  The outcomes of the item parser of Split_File.py: items and a
    footer, or one of four diagnostics.  The test after the loop, "Last
    block must be a FOOTER line", never fires, and no index leaves the
    list. *)
Theorem parse_groups_and_footer_outcomes (lines : list string) (start : nat) :
  (exists groups footer,
     Split_File.parse_groups_and_footer lines start = Ok (groups, footer))
  \/ Split_File.parse_groups_and_footer lines start = Err MissingFooter
  \/ (exists n x, Split_File.parse_groups_and_footer lines start
                  = Err (ExpectedCorrelation n x))
  \/ (exists n x, Split_File.parse_groups_and_footer lines start
                  = Err (UnexpectedLine n x))
  \/ (exists c r p, Split_File.parse_groups_and_footer lines start
                    = Err (IncompleteItem c r p)).
Proof.
  destruct (reads_total (skipn start lines) start) as [r Hr].
  rewrite (reads_sound _ _ _ Hr).
  destruct Hr; [right; left | left | right; right; left
               | right; right; right; left | right; right; right; right];
    eauto.
Qed.


(** ** What parses is a valid document *)

Lemma take_while_split {A : Type} (f : A -> bool) (l : list A) :
  l = take_while f l ++ skipn (length (take_while f l)) l
  /\ forallb f (take_while f l) = true.
Proof.
  induction l as [|x l [IH1 IH2]]; simpl; [now split|].
  destruct (f x) eqn:E; simpl; [|now split].
  rewrite E, IH2. split; [now rewrite <- IH1 | reflexivity].
Qed.

Lemma parse_header_and_meta_ok_inv lines job metas idx :
  Split_File.parse_header_and_meta lines = Ok (job, metas, idx) ->
  exists rest,
    lines = job :: rest /\ is_header job = true
    /\ metas = leading_meta rest /\ metas <> [] /\ idx = 1 + length metas.
Proof.
  destruct lines as [|j rest]; [discriminate|].
  destruct (is_header j) eqn:Hj.
  - rewrite parse_header_and_meta_run by assumption.
    destruct (leading_meta rest) as [|m ms] eqn:E; [discriminate|].
    intros [= <- <- <-]. exists rest. rewrite E. repeat split; auto. discriminate.
  - unfold Split_File.parse_header_and_meta.
    change (Py.startswith j "JOB|") with (is_header j). rewrite Hj. discriminate.
Qed.

(** X6.  What the two parsers of Split_File.py accept is a valid document:
    when the header parser and then the item parser succeed, the input is,
    line for line, the header line, the metadata lines, the lines of the
    items and the footer line they return, followed by lines that were not
    read; the header is header-tagged, there is a metadata line, every
    metadata line is metadata-tagged and every item is complete. *)
Theorem parsed_input_is_document (lines : list string) (job : string)
    (metas : list string) (idx : nat) (groups : list (list string))
    (footer : string) :
  Split_File.parse_header_and_meta lines = Ok (job, metas, idx) ->
  Split_File.parse_groups_and_footer lines idx = Ok (groups, footer) ->
  valid_document (mkDocument job metas groups) = true
  /\ is_footer footer = true
  /\ exists others,
       lines = serialize (mkDocument job metas groups) footer ++ others.
Proof.
  intros Hh Hg.
  apply parse_header_and_meta_ok_inv in Hh as (rest & -> & Hj & Hm & Hne & ->).
  apply parse_ok_shape in Hg as (others & Hs & Hv & Hf).
  destruct (take_while_split is_meta rest) as [Hsplit Hall].
  fold (leading_meta rest) in Hsplit, Hall. rewrite <- Hm in Hsplit, Hall.
  change (skipn (1 + length metas) (job :: rest))
    with (skipn (length metas) rest) in Hs.
  split; [|split; [exact Hf|]].
  - unfold valid_document. cbn [header_line metadata_lines items].
    rewrite Hj, Hall, Hv. destruct metas; [now elim Hne | reflexivity].
  - exists others. unfold serialize. cbn [header_line metadata_lines items app].
    rewrite <- !app_assoc. simpl. f_equal. rewrite <- Hs. exact Hsplit.
Qed.

Lemma parsed_input_is_document_witness :
  valid_document
    (mkDocument "JOB|J1|x" ["META_A|y"; "META_B|z"]
       [["CLNT_CORR|1"; "PLAN|p1"; "CLNT_ROLE|r1"]]) = true
  /\ is_footer "FOOTER|J1|1" = true
  /\ exists others,
       ["JOB|J1|x"; "META_A|y"; "META_B|z"; "CLNT_CORR|1"; "PLAN|p1";
        "CLNT_ROLE|r1"; "FOOTER|J1|1"; "trailing"]
       = serialize
           (mkDocument "JOB|J1|x" ["META_A|y"; "META_B|z"]
              [["CLNT_CORR|1"; "PLAN|p1"; "CLNT_ROLE|r1"]])
           "FOOTER|J1|1" ++ others.
Proof.
  exact (parsed_input_is_document
    ["JOB|J1|x"; "META_A|y"; "META_B|z"; "CLNT_CORR|1"; "PLAN|p1";
     "CLNT_ROLE|r1"; "FOOTER|J1|1"; "trailing"]
    "JOB|J1|x" ["META_A|y"; "META_B|z"] 3
    [["CLNT_CORR|1"; "PLAN|p1"; "CLNT_ROLE|r1"]] "FOOTER|J1|1"
    eq_refl eq_refl).
Defined.

(** ** Split_xpnfile.parse_groups_and_footer follows its own item policy *)

Lemma sibling_groups_loop_at its lines start rest :
  skipn start lines = concat its ++ rest ->
  forallb triple_item its = true ->
  Split_xpnfile.groups_loop (S (length lines)) lines start []
  = Split_xpnfile.groups_loop (S (length lines - length its)) lines
      (start + length (concat its)) its
  /\ skipn (start + length (concat its)) lines = rest.
Proof.
  intros Hs Hv. split; [|exact (skipn_after _ _ _ _ Hs)].
  rewrite (sibling_fuel_split _ _ _ _ Hs Hv) at 1.
  now rewrite (sibling_groups_loop_advance its lines start [] _ _ Hs Hv).
Qed.

Theorem sibling_reads_sound lines start r :
  sibling_reads start (skipn start lines) r ->
  Split_xpnfile.parse_groups_and_footer lines start = r.
Proof.
  intros H. remember (skipn start lines) as suf eqn:Hs. symmetry in Hs.
  destruct H as [its Hv | its f rest Hv Hf | its x rest Hv Hf Hc
                | its c Hv Hc | its c x rest Hv Hc Hx
                | its c r Hv Hc Hr | its c r x rest Hv Hc Hr Hx].
  - exact (sibling_parse_triples_end _ _ its Hs Hv).
  - exact (sibling_parse_triples _ _ its f rest Hs Hv Hf).
  - unfold Split_xpnfile.parse_groups_and_footer.
    destruct (sibling_groups_loop_at its lines start _ Hs Hv) as [-> Hs'].
    apply at_skipn in Hs' as [Hn _].
    now rewrite sibling_groups_loop_eq, Hn, (at_footer_here _ _ _ Hn), Hf, Hc.
  - unfold Split_xpnfile.parse_groups_and_footer.
    destruct (sibling_groups_loop_at its lines start _ Hs Hv) as [-> Hs'].
    apply at_skipn in Hs' as [Hn Hs']. apply past_skipn in Hs'.
    rewrite sibling_groups_loop_eq, Hn, (at_footer_here _ _ _ Hn),
      (corr_not_footer _ Hc), Hc.
    unfold Py.getitem. now rewrite Hs'.
  - unfold Split_xpnfile.parse_groups_and_footer.
    destruct (sibling_groups_loop_at its lines start _ Hs Hv) as [-> Hs'].
    apply at_skipn in Hs' as [Hn Hs']. apply at_skipn in Hs' as [Hn1 _].
    rewrite sibling_groups_loop_eq, Hn, (at_footer_here _ _ _ Hn),
      (corr_not_footer _ Hc), Hc, (getitem_at _ _ _ Hn1).
    cbv beta iota delta [bind negb]. rewrite Hx.
    do 2 f_equal. lia.
  - unfold Split_xpnfile.parse_groups_and_footer.
    destruct (sibling_groups_loop_at its lines start _ Hs Hv) as [-> Hs'].
    apply at_skipn in Hs' as [Hn Hs']. apply at_skipn in Hs' as [Hn1 Hs'].
    apply past_skipn in Hs'.
    rewrite sibling_groups_loop_eq, Hn, (at_footer_here _ _ _ Hn),
      (corr_not_footer _ Hc), Hc, (getitem_at _ _ _ Hn1).
    cbv beta iota delta [bind negb]. rewrite Hr.
    unfold Py.getitem. now rewrite Hs'.
  - unfold Split_xpnfile.parse_groups_and_footer.
    destruct (sibling_groups_loop_at its lines start _ Hs Hv) as [-> Hs'].
    apply at_skipn in Hs' as [Hn Hs']. apply at_skipn in Hs' as [Hn1 Hs'].
    apply at_skipn in Hs' as [Hn2 _].
    rewrite sibling_groups_loop_eq, Hn, (at_footer_here _ _ _ Hn),
      (corr_not_footer _ Hc), Hc, (getitem_at _ _ _ Hn1).
    cbv beta iota delta [bind negb]. rewrite Hr, (getitem_at _ _ _ Hn2).
    cbv beta iota. rewrite Hx. do 2 f_equal. lia.
Qed.

Lemma sibling_reads_after_item item rest start r :
  triple_item item = true ->
  sibling_reads (start + length item) rest r ->
  exists r', sibling_reads start (item ++ rest) r'.
Proof.
  intros Hv H.
  assert (Hc : forall its, forallb triple_item its = true ->
                           forallb triple_item (item :: its) = true)
    by (intros its Hi; simpl; now rewrite Hv, Hi).
  destruct H as [its Hi | its f rest Hi Hf | its x rest Hi Hf Hx
                | its c Hi Hx | its c x rest Hi Hx Hy
                | its c r Hi Hx Hr | its c r x rest Hi Hx Hr Hy];
    eexists; rewrite ?app_assoc;
    change (item ++ concat its) with (concat (item :: its)).
  - rewrite <- (app_nil_r (concat (item :: its))) at 1. rewrite app_nil_r.
    apply sreads_end; auto.
  - apply sreads_footer; auto.
  - apply sreads_not_corr; auto.
  - apply sreads_role_missing; auto.
  - apply sreads_not_role; auto.
  - apply sreads_plan_missing; auto.
  - apply sreads_not_plan; auto.
Qed.

Theorem sibling_reads_total (suf : list string) :
  forall start, exists r, sibling_reads start suf r.
Proof.
  remember (length suf) as n eqn:Hn. revert suf Hn.
  induction n as [n IH] using lt_wf_ind. intros suf Hn start.
  destruct suf as [|c t].
  { eexists. exact (sreads_end start [] eq_refl). }
  destruct (is_footer c) eqn:Hf.
  { eexists. exact (sreads_footer start [] c t eq_refl Hf). }
  destruct (is_corr c) eqn:Hc.
  2:{ eexists. exact (sreads_not_corr start [] c t eq_refl Hf Hc). }
  destruct t as [|r t].
  { eexists. exact (sreads_role_missing start [] c eq_refl Hc). }
  destruct (is_role r) eqn:Hr.
  2:{ eexists. exact (sreads_not_role start [] c r t eq_refl Hc Hr). }
  destruct t as [|p t].
  { eexists. exact (sreads_plan_missing start [] c r eq_refl Hc Hr). }
  destruct (is_plan p) eqn:Hp.
  2:{ eexists. exact (sreads_not_plan start [] c r p t eq_refl Hc Hr Hp). }
  destruct (IH (length t)) with (suf := t) (start := start + length [c; r; p])
    as [res Hres]; auto.
  { subst n. simpl. lia. }
  apply (sibling_reads_after_item [c; r; p] t start res); auto.
  simpl. now rewrite Hc, Hr, Hp.
Qed.

Lemma sibling_parse_reads lines start r :
  Split_xpnfile.parse_groups_and_footer lines start = r
  <-> sibling_reads start (skipn start lines) r.
Proof.
  split; [|apply sibling_reads_sound].
  intros <-. destruct (sibling_reads_total (skipn start lines) start) as [r Hr].
  now rewrite (sibling_reads_sound _ _ _ Hr).
Qed.

(** X7.  The item parser of the sibling succeeds exactly on items of one
    correlation line, one role line and one plan line, in this order,
    followed by a footer-tagged line; the line it returns as the footer is
    footer-tagged, though nothing tests it after the loop. *)
Theorem sibling_parse_success_exactly (lines : list string) (start : nat)
    (groups : list (list string)) (footer : string) :
  Split_xpnfile.parse_groups_and_footer lines start = Ok (groups, footer)
  <-> exists rest,
        skipn start lines = concat groups ++ footer :: rest
        /\ forallb triple_item groups = true /\ is_footer footer = true.
Proof.
  split.
  - intros H. apply sibling_parse_reads in H.
    remember (skipn start lines) as suf eqn:Hs.
    remember (Ok (groups, footer)) as res eqn:Hr.
    destruct H; try discriminate. injection Hr as <- <-. now exists rest.
  - intros (rest & Hs & Hv & Hf). now apply sibling_parse_triples with (rest := rest).
Qed.

(** X8.  The item parser of the sibling reads a line outside the list
    (IndexError) exactly when the input ends inside an item: after whole
    items, on a correlation line alone or on a correlation line and a role
    line. *)
Theorem sibling_index_error_exactly (lines : list string) (start : nat) :
  Split_xpnfile.parse_groups_and_footer lines start = Err IndexError
  <-> exists its c,
        forallb triple_item its = true /\ is_corr c = true
        /\ (skipn start lines = concat its ++ [c]
            \/ exists r, is_role r = true
                         /\ skipn start lines = concat its ++ [c; r]).
Proof.
  split.
  - intros H. apply sibling_parse_reads in H.
    remember (skipn start lines) as suf eqn:Hs.
    remember (Err IndexError) as res eqn:Hr.
    destruct H as [| | | its c Hv Hc | | its c r Hv Hc Hr' |]; try discriminate.
    + exists its, c. auto.
    + exists its, c. repeat split; auto. right. now exists r.
  - intros (its & c & Hv & Hc & [Hs | (r & Hr & Hs)]);
      apply sibling_reads_sound; rewrite Hs.
    + now apply sreads_role_missing.
    + now apply sreads_plan_missing.
Qed.


(** ** Edge inputs of the header parsers and of the field extraction *)

(** X9.  On an empty input Split_File.py reports "Input file is empty."
    and the sibling, which reads [lines[0]] at once, ends in an
    IndexError; nothing else gives either outcome.  Both report a
    malformed header exactly when the first line does not start with the
    header tag. *)
Theorem header_parser_edges (lines : list string) :
  (Split_File.parse_header_and_meta lines = Err EmptyInput <-> lines = [])
  /\ (Split_xpnfile.parse_header_and_meta lines = Err IndexError
      <-> lines = [])
  /\ (Split_File.parse_header_and_meta lines = Err MalformedHeader
      <-> exists j rest, lines = j :: rest /\ is_header j = false)
  /\ (Split_xpnfile.parse_header_and_meta lines = Err MalformedHeader
      <-> exists j rest, lines = j :: rest /\ is_header j = false).
Proof.
  destruct lines as [|j rest].
  - repeat split; try reflexivity; try discriminate;
      intros (j & rest & E & _); discriminate.
  - destruct (is_header j) eqn:Hj.
    + rewrite parse_header_and_meta_run, sibling_parse_header_and_meta_run
        by assumption.
      repeat split; try discriminate;
        try (destruct (leading_meta rest); discriminate);
        intros (j' & rest' & [= <- <-] & E); congruence.
    + unfold Split_File.parse_header_and_meta, Split_xpnfile.parse_header_and_meta.
      change (Py.getitem (j :: rest) 0) with (Ok j).
      cbv beta iota delta [bind].
      change (Py.startswith j "JOB|") with (is_header j). rewrite Hj. simpl negb.
      cbv iota. repeat split; try discriminate; try reflexivity;
        intros _; now exists j, rest.
Qed.

Lemma sibling_extract_job_code job :
  is_header job = true ->
  Split_xpnfile.extract_job_code job = Split_File.extract_job_code job.
Proof.
  intros H. destruct (header_fields job H) as (code & more & E).
  unfold Split_File.extract_job_code, Split_xpnfile.extract_job_code, Py.getitem.
  now rewrite E.
Qed.

(** X10.  The job code is read back from a header line made of it: for a
    job code without the delimiter, both [extract_job_code] return it from
    "JOB|<code>" and from "JOB|<code>|<anything>"; and what
    [extract_job_code] returns never holds the delimiter. *)
Theorem extract_job_code_roundtrip (code tail : string) :
  has_char pipe code = false ->
  Split_File.extract_job_code ("JOB|" ++ code)%string = Ok code
  /\ Split_File.extract_job_code ("JOB|" ++ code ++ "|" ++ tail)%string = Ok code
  /\ Split_xpnfile.extract_job_code ("JOB|" ++ code)%string = Ok code
  /\ Split_xpnfile.extract_job_code ("JOB|" ++ code ++ "|" ++ tail)%string
     = Ok code
  /\ forall job c,
       Split_File.extract_job_code job = Ok c -> has_char pipe c = false.
Proof.
  intros Hc.
  assert (E1 : Py.split pipe ("JOB|" ++ code)%string = ["JOB"; code]).
  { change ("JOB|" ++ code)%string with ("JOB" ++ String pipe code)%string.
    rewrite split_join by reflexivity. now rewrite split_plain. }
  assert (E2 : Py.split pipe ("JOB|" ++ code ++ "|" ++ tail)%string
               = "JOB" :: code :: Py.split pipe tail).
  { change ("JOB|" ++ code ++ "|" ++ tail)%string
      with ("JOB" ++ String pipe (code ++ String pipe tail))%string.
    rewrite split_join by reflexivity. now rewrite split_join. }
  unfold Split_File.extract_job_code, Split_xpnfile.extract_job_code, Py.getitem.
  rewrite E1, E2. repeat split.
  intros job c. apply job_code_no_pipe.
Qed.

Lemma extract_job_code_roundtrip_witness :
  has_char pipe "J1" = false
  /\ Split_File.extract_job_code ("JOB|" ++ "J1" ++ "|" ++ "x|y")%string
     = Ok "J1".
Proof.
  split; [reflexivity|].
  exact (proj1 (proj2 (extract_job_code_roundtrip "J1" "x|y" eq_refl))).
Defined.

(** ** The outcomes of validate_footer *)

(** X11.  [validate_footer] passes exactly the footer lines of three
    fields whose second field is the expected job code and whose third
    field [int] reads, with a warning exactly when the count read is not
    the number of items; the first field is not looked at.  It reports a
    count that is not an integer only when the job code matches, and a
    malformed footer exactly when the number of fields is not three. *)
Theorem validate_footer_outcomes (py_int : string -> option Z)
    (footer_line code : string) (total : nat) :
  (forall w,
     Split_File.validate_footer py_int footer_line code total = Ok w
     <-> exists tag cnt c,
           Py.split pipe footer_line = [tag; code; cnt]
           /\ py_int cnt = Some c
           /\ w = if (c =? Z.of_nat total)%Z then None
                  else Some (FooterCountMismatch c total))
  /\ (Split_File.validate_footer py_int footer_line code total
        = Err FooterCountNotInteger
      <-> exists tag cnt,
            Py.split pipe footer_line = [tag; code; cnt]
            /\ py_int cnt = None)
  /\ (Split_File.validate_footer py_int footer_line code total
        = Err MalformedFooter
      <-> length (Py.split pipe footer_line) <> 3).
Proof.
  unfold Split_File.validate_footer.
  destruct (Py.split pipe footer_line) as [|t [|j [|c [|x y]]]].
  1-3, 5:
    (split; [intros w; split; [discriminate | intros (?&?&?&E&_); discriminate]|];
     split; [split; [discriminate | intros (?&?&E&_); discriminate]|];
     split; [simpl; lia | reflexivity]).
  destruct (String.eqb j code) eqn:Ej; simpl negb; cbv iota.
  - apply String.eqb_eq in Ej. subst j.
    destruct (py_int c) as [v|] eqn:Ei.
    + split; [intros w; split|split; [split|split]].
      * destruct (v =? Z.of_nat total)%Z eqn:Ev; simpl; intros [= <-];
          exists t, c, v; rewrite Ev; repeat split; auto.
      * intros (tag & cnt & v' & [= -> ->] & Hv & ->).
        rewrite Ei in Hv. injection Hv as <-.
        now destruct (v =? Z.of_nat total)%Z.
      * destruct (negb (v =? Z.of_nat total)%Z); discriminate.
      * intros (tag & cnt & [= -> ->] & Hn). congruence.
      * destruct (negb (v =? Z.of_nat total)%Z); discriminate.
      * simpl. intros H. now elim H.
    + split; [intros w; split|split; [split|split]].
      * discriminate.
      * intros (tag & cnt & v' & [= -> ->] & Hv & _). congruence.
      * intros _. now exists t, c.
      * reflexivity.
      * discriminate.
      * simpl. intros H. now elim H.
  - apply string_eqb_false in Ej.
    split; [intros w; split|split; [split|split]].
    + discriminate.
    + intros (tag & cnt & v' & [= -> -> ->] & _). now elim Ej.
    + discriminate.
    + intros (tag & cnt & [= -> -> ->] & _). now elim Ej.
    + discriminate.
    + simpl. intros H. now elim H.
Qed.


(** ** The files of one run *)

Lemma str_inj n m : Py.str n = Py.str m -> n = m.
Proof.
  unfold Py.str. intros H. apply DecimalNat.Unsigned.to_uint_inj.
  pose proof (NilEmpty.usu (Nat.to_uint n)) as Hn.
  pose proof (NilEmpty.usu (Nat.to_uint m)) as Hm.
  rewrite H in Hn. congruence.
Qed.

Lemma append_cancel_l (p a b : string) :
  (p ++ a)%string = (p ++ b)%string -> a = b.
Proof. induction p as [|c p IH]; simpl; [auto|]. intros [= H]. auto. Qed.

Lemma string_length_append (a b : string) :
  String.length (a ++ b) = String.length a + String.length b.
Proof. induction a as [|c a IH]; simpl; auto. Qed.

Lemma append_cancel_r (a b c : string) :
  (a ++ c)%string = (b ++ c)%string -> a = b.
Proof.
  revert b; induction a as [|x a IH]; intros [|y b] H; simpl in H.
  - reflexivity.
  - apply (f_equal String.length) in H. simpl in H.
    rewrite string_length_append in H. lia.
  - apply (f_equal String.length) in H. simpl in H.
    rewrite string_length_append in H. lia.
  - injection H as -> H. f_equal. now apply IH.
Qed.

Lemma render_all_paths prefix job metas code cs :
  map out_path (render_all prefix job metas code cs)
  = map (fun k => (prefix ++ Py.str k ++ ".csv")%string) (seq 1 (length cs)).
Proof.
  unfold render_all, numbered. rewrite map_map. simpl.
  generalize 1 as n. induction cs as [|c cs IH]; intros n; simpl; [reflexivity|].
  now rewrite IH.
Qed.

Lemma NoDup_map_inj {A B : Type} (f : A -> B) (l : list A) :
  (forall a b, f a = f b -> a = b) -> NoDup l -> NoDup (map f l).
Proof.
  intros Hf H. induction H as [|x l Hx Hl IH]; simpl; constructor; auto.
  intros Hin. apply in_map_iff in Hin as (y & Hy & Hin).
  apply Hf in Hy. subst y. contradiction.
Qed.

Lemma paths_distinct prefix n len :
  NoDup (map (fun k => (prefix ++ Py.str k ++ ".csv")%string) (seq n len)).
Proof.
  apply NoDup_map_inj; [|apply seq_NoDup].
  intros a b H. apply append_cancel_l, append_cancel_r in H.
  now apply str_inj.
Qed.

(** X12.  The files of one run have names of their own: with a positive
    batch size both writers add to the output directory files named
    <prefix>1.csv, <prefix>2.csv, ... in this order, no two of them with
    the same name, so no file of a run overwrites another one of it. *)
Theorem output_paths_distinct
    (prefix job : string) (metas : list string) (groups : list (list string))
    (b : Z) (code : string) (fs : FS) :
  (0 < b)%Z ->
  exists files,
    Split_File.write_batches prefix job metas groups b code fs
      = (fs ++ files, Ok tt)
    /\ Split_xpnfile.write_batches prefix job metas groups b code fs
       = (fs ++ files, Ok tt)
    /\ map out_path files
       = map (fun k => (prefix ++ Py.str k ++ ".csv")%string)
             (seq 1 (length files))
    /\ NoDup (map out_path files).
Proof.
  intros Hb. exists (render_all prefix job metas code (chunks groups b)).
  split; [now apply write_batches_files|].
  split; [now apply sibling_write_batches_files|].
  rewrite render_all_paths, length_render_all.
  split; [reflexivity | apply paths_distinct].
Qed.

Lemma output_paths_distinct_witness :
  (0 < 1)%Z
  /\ exists files,
       Split_File.write_batches "out" "JOB|J1|x" ["META_A|y"]
         [["CLNT_CORR|1"; "CLNT_ROLE|r1"; "PLAN|p1"];
          ["CLNT_CORR|2"; "CLNT_ROLE|r2"; "PLAN|p2"]] 1 "J1" []
       = ([] ++ files, Ok tt)
       /\ Split_xpnfile.write_batches "out" "JOB|J1|x" ["META_A|y"]
            [["CLNT_CORR|1"; "CLNT_ROLE|r1"; "PLAN|p1"];
             ["CLNT_CORR|2"; "CLNT_ROLE|r2"; "PLAN|p2"]] 1 "J1" []
          = ([] ++ files, Ok tt)
       /\ map out_path files
          = map (fun k => ("out" ++ Py.str k ++ ".csv")%string)
                (seq 1 (length files))
       /\ NoDup (map out_path files).
Proof.
  split; [lia|].
  exact (output_paths_distinct "out" "JOB|J1|x" ["META_A|y"]
           [["CLNT_CORR|1"; "CLNT_ROLE|r1"; "PLAN|p1"];
            ["CLNT_CORR|2"; "CLNT_ROLE|r2"; "PLAN|p2"]] 1 "J1" [] eq_refl).
Defined.

(** X13.  No file is written without an item: with a positive batch size
    B, the k-th file a writer adds holds the lines of a chunk of at least
    one and at most B items. *)
Theorem written_files_hold_items
    (prefix job : string) (metas : list string) (groups : list (list string))
    (b : Z) (code : string) (fs : FS) (k : nat) (f : OutFile) :
  (0 < b)%Z ->
  nth_error (fst (Split_File.write_batches prefix job metas groups b code fs))
            (length fs + k) = Some f ->
  nth_error (fst (Split_xpnfile.write_batches prefix job metas groups b code fs))
            (length fs + k) = Some f
  /\ exists chunk,
       f = render prefix job metas code (k + 1) chunk
       /\ chunk = firstn (Z.to_nat b) (skipn (k * Z.to_nat b) groups)
       /\ (1 <= Z.of_nat (length chunk) <= b)%Z.
Proof.
  intros Hb Hk. rewrite sibling_write_batches_files by assumption.
  rewrite write_batches_files in Hk by assumption. simpl fst in *.
  split; [exact Hk|].
  rewrite nth_error_app2, Nat.add_comm, Nat.add_sub, nth_render_all in Hk by lia.
  destruct (nth_error (chunks groups b) k) as [chunk|] eqn:E; [|discriminate].
  injection Hk as <-. exists chunk. split; [reflexivity|].
  split; [exact (nth_chunk _ _ _ _ Hb E)|].
  rewrite (chunk_size groups b k chunk Hb E).
  pose proof (Z.mod_pos_bound (Z.of_nat (length groups)) b Hb) as Hm.
  destruct (k + 1 <? length (chunks groups b))%nat; [lia|].
  destruct (Z.of_nat (length groups) mod b =? 0)%Z eqn:Ez; [lia|].
  apply Z.eqb_neq in Ez. lia.
Qed.

Lemma written_files_hold_items_witness :
  exists chunk,
    mkOutFile "out2.csv"
      ["JOB|J1|x"; "META_A|y"; "CLNT_CORR|3"; "CLNT_ROLE|r3"; "PLAN|p3";
       "FOOTER|J1|1"]
    = render "out" "JOB|J1|x" ["META_A|y"] "J1" (1 + 1) chunk
    /\ chunk = firstn (Z.to_nat 2)
                 (skipn (1 * Z.to_nat 2)
                    [["CLNT_CORR|1"; "CLNT_ROLE|r1"; "PLAN|p1"];
                     ["CLNT_CORR|2"; "CLNT_ROLE|r2"; "PLAN|p2"];
                     ["CLNT_CORR|3"; "CLNT_ROLE|r3"; "PLAN|p3"]])
    /\ (1 <= Z.of_nat (length chunk) <= 2)%Z.
Proof.
  exact (proj2
    (written_files_hold_items "out" "JOB|J1|x" ["META_A|y"]
       [["CLNT_CORR|1"; "CLNT_ROLE|r1"; "PLAN|p1"];
        ["CLNT_CORR|2"; "CLNT_ROLE|r2"; "PLAN|p2"];
        ["CLNT_CORR|3"; "CLNT_ROLE|r3"; "PLAN|p3"]] 2 "J1" [] 1
       (mkOutFile "out2.csv"
          ["JOB|J1|x"; "META_A|y"; "CLNT_CORR|3"; "CLNT_ROLE|r3"; "PLAN|p3";
           "FOOTER|J1|1"])
       eq_refl eq_refl)).
Defined.


(** ** Whole runs *)

Lemma main_run ITEMS prefix py_int lines fs job metas idx groups footer code w :
  Split_File.parse_header_and_meta lines = Ok (job, metas, idx) ->
  Split_File.parse_groups_and_footer lines idx = Ok (groups, footer) ->
  Split_File.extract_job_code job = Ok code ->
  Split_File.validate_footer py_int footer code (length groups) = Ok w ->
  (0 < ITEMS)%Z ->
  Split_File.main ITEMS prefix py_int lines fs
  = (fs ++ render_all prefix job metas code (chunks groups ITEMS), Ok w).
Proof.
  intros Hh Hg Hc Hv Hb. unfold Split_File.main.
  rewrite Hh. cbv beta iota delta [bind]. rewrite Hg. cbv beta iota.
  rewrite Hc, Hv. now rewrite write_batches_files by assumption.
Qed.

Lemma main_ok_inv ITEMS prefix py_int lines fs out w :
  Split_File.main ITEMS prefix py_int lines fs = (out, Ok w) ->
  exists job metas idx groups footer code,
    Split_File.parse_header_and_meta lines = Ok (job, metas, idx)
    /\ Split_File.parse_groups_and_footer lines idx = Ok (groups, footer)
    /\ Split_File.extract_job_code job = Ok code
    /\ Split_File.validate_footer py_int footer code (length groups) = Ok w
    /\ (0 < ITEMS)%Z
    /\ out = fs ++ render_all prefix job metas code (chunks groups ITEMS).
Proof.
  unfold Split_File.main.
  destruct (Split_File.parse_header_and_meta lines) as [[[job metas] idx]|e] eqn:Hh;
    cbv beta iota delta [bind]; [|discriminate].
  destruct (Split_File.parse_groups_and_footer lines idx) as [[groups footer]|e] eqn:Hg;
    cbv beta iota; [|discriminate].
  destruct (Split_File.extract_job_code job) as [code|e] eqn:Hc; [|discriminate].
  destruct (Split_File.validate_footer py_int footer code (length groups))
    as [w'|e] eqn:Hv; [|discriminate].
  destruct (Z.le_gt_cases ITEMS 0) as [Hb|Hb].
  - rewrite write_batches_guard by assumption. discriminate.
  - rewrite write_batches_files by lia. intros [= <- <-].
    now exists job, metas, idx, groups, footer, code.
Qed.

Lemma sibling_main_ok_inv ITEMS prefix lines fs out :
  Split_xpnfile.main ITEMS prefix lines fs = (out, Ok tt) ->
  exists job metas idx groups footer code,
    Split_xpnfile.parse_header_and_meta lines = Ok (job, metas, idx)
    /\ Split_xpnfile.parse_groups_and_footer lines idx = Ok (groups, footer)
    /\ Split_xpnfile.extract_job_code job = Ok code
    /\ Split_xpnfile.write_batches prefix job metas groups ITEMS code fs
       = (out, Ok tt).
Proof.
  unfold Split_xpnfile.main.
  destruct (Split_xpnfile.parse_header_and_meta lines) as [[[job metas] idx]|e] eqn:Hh;
    cbv beta iota delta [bind]; [|discriminate].
  destruct (Split_xpnfile.parse_groups_and_footer lines idx) as [[groups footer]|e] eqn:Hg;
    cbv beta iota; [|discriminate].
  destruct (Split_xpnfile.extract_job_code job) as [code|e] eqn:Hc; [|discriminate].
  intros H. now exists job, metas, idx, groups, footer, code.
Qed.

Lemma validate_footer_ok py_int footer_line tag code cnt c total :
  Py.split pipe footer_line = [tag; code; cnt] ->
  py_int cnt = Some c ->
  Split_File.validate_footer py_int footer_line code total
  = Ok (if (c =? Z.of_nat total)%Z then None
        else Some (FooterCountMismatch c total)).
Proof.
  intros Hs Hi. unfold Split_File.validate_footer.
  rewrite Hs, String.eqb_refl, Hi. simpl negb.
  now destruct (c =? Z.of_nat total)%Z.
Qed.

(** X14.  A run of Split_File.py on the lines of a valid document: when
    the footer line has three fields, the job code of the header line and
    a count that [int] reads, and the batch size is positive, the run ends
    well and adds to the output directory the files of the chunks of the
    items of the document, with a warning exactly when the count of the
    footer is not the number of items. *)
Theorem main_on_valid_document
    (ITEMS : Z) (prefix : string) (py_int : string -> option Z)
    (d : Document) (footer_line tag code cnt : string) (declared : Z)
    (fs : FS) :
  valid_document d = true ->
  Split_File.extract_job_code (header_line d) = Ok code ->
  Py.split pipe footer_line = [tag; code; cnt] ->
  is_footer footer_line = true ->
  py_int cnt = Some declared ->
  (0 < ITEMS)%Z ->
  Split_File.main ITEMS prefix py_int (serialize d footer_line) fs
  = (fs ++ render_all prefix (header_line d) (metadata_lines d) code
             (chunks (items d) ITEMS),
     Ok (if (declared =? Z.of_nat (length (items d)))%Z then None
         else Some (FooterCountMismatch declared (length (items d))))).
Proof.
  intros Hd Hc Hs Hf Hi Hb.
  destruct (parse_serialize d footer_line Hd Hf) as [Hh Hg].
  apply (main_run _ _ _ _ _ _ _ _ _ _ _ _ Hh Hg Hc); [|exact Hb].
  exact (validate_footer_ok _ _ _ _ _ _ _ Hs Hi).
Qed.

Lemma main_on_valid_document_witness :
  Split_File.main 2 "out" int_of_digits
    (serialize
       (mkDocument "JOB|J1|x" ["META_A|y"]
          [["CLNT_CORR|1"; "PLAN|p1"; "CLNT_ROLE|r1"]])
       "FOOTER|J1|4") []
  = ([] ++ render_all "out" "JOB|J1|x" ["META_A|y"] "J1"
             (chunks [["CLNT_CORR|1"; "PLAN|p1"; "CLNT_ROLE|r1"]] 2),
     Ok (if (4 =? Z.of_nat 1)%Z then None
         else Some (FooterCountMismatch 4 1))).
Proof.
  exact (main_on_valid_document 2 "out" int_of_digits
    (mkDocument "JOB|J1|x" ["META_A|y"]
       [["CLNT_CORR|1"; "PLAN|p1"; "CLNT_ROLE|r1"]])
    "FOOTER|J1|4" "FOOTER" "J1" "4" 4 []
    eq_refl eq_refl eq_refl eq_refl eq_refl eq_refl).
Defined.

Lemma chunks_nil {A : Type} (b : Z) : chunks (@nil A) b = [].
Proof.
  unfold chunks, Py.range, Py.range_len. simpl.
  destruct (0 <? b)%Z; [reflexivity|]. destruct (b <? 0)%Z; reflexivity.
Qed.

(** X15.  An input without items gives no output file: on a header line,
    metadata lines and a footer line alone, a run of Split_File.py that
    gets past the footer ends well with the output directory as it was,
    and so does a run of the sibling, which asks for no metadata line and
    does not look at the footer. *)
Theorem no_items_no_files
    (ITEMS : Z) (prefix : string) (py_int : string -> option Z)
    (job : string) (metas : list string) (footer_line tag code cnt : string)
    (declared : Z) (fs : FS) :
  is_header job = true ->
  forallb is_meta metas = true ->
  is_footer footer_line = true ->
  (metas <> [] ->
   Split_File.extract_job_code job = Ok code ->
   Py.split pipe footer_line = [tag; code; cnt] ->
   py_int cnt = Some declared ->
   (0 < ITEMS)%Z ->
   Split_File.main ITEMS prefix py_int (job :: metas ++ [footer_line]) fs
   = (fs, Ok (if (declared =? 0)%Z then None
              else Some (FooterCountMismatch declared 0))))
  /\ (ITEMS <> 0%Z ->
      Split_xpnfile.main ITEMS prefix (job :: metas ++ [footer_line]) fs
      = (fs, Ok tt)).
Proof.
  intros Hj Hm Hf. split.
  - intros Hne Hc Hs Hi Hb.
    assert (Hd : valid_document (mkDocument job metas []) = true).
    { unfold valid_document. cbn [header_line metadata_lines items].
      rewrite Hj, Hm. destruct metas; [now elim Hne | reflexivity]. }
    destruct (parse_serialize _ footer_line Hd Hf) as [Hh Hg].
    unfold serialize in Hh, Hg. cbn [header_line metadata_lines items app concat] in Hh, Hg.
    rewrite (main_run _ prefix py_int _ fs _ _ _ _ _ _ _ Hh Hg Hc
               (validate_footer_ok _ _ _ _ _ _ 0 Hs Hi) Hb).
    now rewrite chunks_nil, app_nil_r.
  - intros Hb. unfold Split_xpnfile.main.
    rewrite sibling_parse_header_and_meta_run by assumption.
    assert (E : leading_meta (metas ++ [footer_line]) = metas).
    { apply take_while_app; auto. now apply footer_not_meta. }
    rewrite E. cbv beta iota delta [bind].
    rewrite (sibling_parse_triples (job :: metas ++ [footer_line])
               (1 + length metas) [] footer_line [] ) ; auto.
    2:{ exact (skipn_after (job :: metas ++ [footer_line]) (job :: metas)
                 [footer_line] 0 eq_refl). }
    cbv beta iota. rewrite sibling_extract_job_code by assumption.
    destruct (header_fields job Hj) as (c & more & Ec).
    unfold Split_File.extract_job_code. rewrite Ec. simpl.
    unfold Split_xpnfile.write_batches, Py.range, Py.range_len. simpl.
    destruct (0 <? ITEMS)%Z eqn:E1; [reflexivity|].
    destruct (ITEMS <? 0)%Z eqn:E2; [reflexivity|].
    apply Z.ltb_ge in E1, E2. lia.
Qed.

Lemma no_items_no_files_witness :
  Split_File.main 5 "out" int_of_digits
    ("JOB|J1|x" :: ["META_A|y"] ++ ["FOOTER|J1|0"]) []
  = ([], Ok (if (0 =? 0)%Z then None else Some (FooterCountMismatch 0 0))).
Proof.
  exact (proj1
    (no_items_no_files 5 "out" int_of_digits "JOB|J1|x" ["META_A|y"]
       "FOOTER|J1|0" "FOOTER" "J1" "0" 0 [] eq_refl eq_refl eq_refl)
    ltac:(discriminate) eq_refl eq_refl eq_refl eq_refl).
Defined.

Lemma chunks_whole {A : Type} (groups : list A) (b : Z) :
  (1 <= Z.of_nat (length groups) <= b)%Z -> chunks groups b = [groups].
Proof.
  intros [H1 H2]. rewrite chunks_nat by lia.
  assert (E : ceil_div (Z.of_nat (length groups)) b = 1%Z).
  { unfold ceil_div.
    replace (Z.of_nat (length groups) + b - 1)%Z
      with ((Z.of_nat (length groups) - 1) + 1 * b)%Z by lia.
    rewrite Z.div_add, Z.div_small by lia. reflexivity. }
  rewrite E. simpl. f_equal. apply firstn_all2. lia.
Qed.

(** X16.  A file of the writer is a fixed point of the program: a valid
    document of at least one and at most ITEMS_PER_FILE items, closed by
    the footer line the writer composes for it, is written back line for
    line as the single file <prefix>1.csv, without a warning (for an [int]
    that reads back what [str] prints). *)
Theorem written_file_is_fixed_point
    (ITEMS : Z) (prefix : string) (py_int : string -> option Z)
    (d : Document) (code : string) (fs : FS) :
  valid_document d = true ->
  Split_File.extract_job_code (header_line d) = Ok code ->
  (forall n, py_int (Py.str n) = Some (Z.of_nat n)) ->
  (1 <= Z.of_nat (length (items d)) <= ITEMS)%Z ->
  Split_File.main ITEMS prefix py_int
    (serialize d (footer_of code (length (items d)))) fs
  = (fs ++ [mkOutFile (prefix ++ "1.csv")%string
              (serialize d (footer_of code (length (items d))))],
     Ok None).
Proof.
  intros Hd Hc Hi Hn.
  destruct (parse_serialize d _ Hd (footer_of_is_footer code (length (items d))))
    as [Hh Hg].
  rewrite (main_run _ prefix py_int _ fs _ _ _ _ _ _ None Hh Hg Hc).
  - rewrite chunks_whole by assumption. now destruct d.
  - apply validate_footer_of; [exact Hi | exact (job_code_no_pipe _ _ Hc)].
  - lia.
Qed.

Lemma written_file_is_fixed_point_witness :
  Split_File.main 2 "out" int_of_digits
    (serialize
       (mkDocument "JOB|J1|x" ["META_A|y"]
          [["CLNT_CORR|1"; "CLNT_ROLE|r1"; "PLAN|p1"]])
       (footer_of "J1" 1)) []
  = ([] ++ [mkOutFile "out1.csv"
              ["JOB|J1|x"; "META_A|y"; "CLNT_CORR|1"; "CLNT_ROLE|r1";
               "PLAN|p1"; "FOOTER|J1|1"]],
     Ok None).
Proof.
  exact (written_file_is_fixed_point 2 "out" int_of_digits
    (mkDocument "JOB|J1|x" ["META_A|y"]
       [["CLNT_CORR|1"; "CLNT_ROLE|r1"; "PLAN|p1"]])
    "J1" [] eq_refl eq_refl int_of_digits_str
    ltac:(simpl; lia)).
Defined.

Lemma triple_is_valid item : triple_item item = true -> valid_item item = true.
Proof.
  intros H. apply triple_item_inv in H as (c & r & p & -> & Hc & Hr & Hp).
  unfold valid_item. rewrite Hc. simpl forallb. unfold is_member.
  rewrite Hr, Hp, orb_true_r. cbn [andb orb].
  rewrite !roles_cons, !plans_cons, Hr, Hp.
  destruct (is_role p), (is_plan r); reflexivity.
Qed.

Lemma triples_are_valid its :
  forallb triple_item its = true -> forallb valid_item its = true.
Proof.
  induction its as [|it its IH]; simpl; auto.
  rewrite !andb_true_iff. intros [H1 H2]. split; [now apply triple_is_valid | auto].
Qed.

(** X18.  The two programs agree where both end well: on the same lines,
    batch size and prefix they write the same files.  And a run of
    Split_File.py that ends well on items of one correlation, one role and
    one plan line each is a run the sibling ends well on, with the same
    files. *)
Theorem programs_agree
    (ITEMS : Z) (prefix : string) (py_int : string -> option Z)
    (lines : list string) (fs out : FS) (w : option Warning) :
  Split_File.main ITEMS prefix py_int lines fs = (out, Ok w) ->
  (forall out', Split_xpnfile.main ITEMS prefix lines fs = (out', Ok tt) ->
                out' = out)
  /\ (forall idx job metas groups footer,
        Split_File.parse_header_and_meta lines = Ok (job, metas, idx) ->
        Split_File.parse_groups_and_footer lines idx = Ok (groups, footer) ->
        forallb triple_item groups = true ->
        Split_xpnfile.main ITEMS prefix lines fs = (out, Ok tt)).
Proof.
  intros H.
  apply main_ok_inv in H
    as (job & metas & idx & groups & footer & code & Hh & Hg & Hc & Hv & Hb & ->).
  pose proof Hh as Hh'.
  apply parse_header_and_meta_ok_inv in Hh' as (rest & -> & Hj & Hm & Hne & Hi).
  assert (Hsh : Split_xpnfile.parse_header_and_meta (job :: rest)
                = Ok (job, metas, idx)).
  { rewrite sibling_parse_header_and_meta_run by assumption. now rewrite <- Hm, Hi. }
  assert (Hsc : Split_xpnfile.extract_job_code job = Ok code)
    by (now rewrite sibling_extract_job_code).
  split.
  - intros out' H'. apply sibling_main_ok_inv in H'
      as (job' & metas' & idx' & groups' & footer' & code' & Hh' & Hg' & Hc' & Hw').
    rewrite Hsh in Hh'. injection Hh' as <- <- <-.
    rewrite Hsc in Hc'. injection Hc' as <-.
    apply sibling_parse_reads in Hg'.
    remember (skipn idx (job :: rest)) as suf eqn:Hs.
    remember (Ok (groups', footer')) as res eqn:Hr.
    destruct Hg' as [| its f others Hvs Hf | | | | |]; try discriminate.
    injection Hr as <- <-. symmetry in Hs.
    assert (Hg2 : Split_File.parse_groups_and_footer (job :: rest) idx
                  = Ok (its, f)).
    { apply parse_ok_shape. exists others.
      split; [exact Hs|]. split; [now apply triples_are_valid | exact Hf]. }
    rewrite Hg in Hg2. injection Hg2 as <- <-.
    rewrite sibling_write_batches_files in Hw' by assumption.
    now injection Hw' as <-.
  - intros idx' job' metas' groups' footer' Hh2 Hg2 Ht.
    rewrite Hh in Hh2. injection Hh2 as <- <- <-.
    rewrite Hg in Hg2. injection Hg2 as <- <-.
    apply parse_ok_shape in Hg as (others & Hs & _ & Hf).
    unfold Split_xpnfile.main. rewrite Hsh. cbv beta iota delta [bind].
    rewrite (sibling_parse_triples _ _ _ _ _ Hs Ht Hf). cbv beta iota.
    rewrite Hsc. now apply sibling_write_batches_files.
Qed.

Lemma programs_agree_witness :
  Split_xpnfile.main 1 "out"
    ["JOB|J1|x"; "META_A|y"; "CLNT_CORR|1"; "CLNT_ROLE|r1"; "PLAN|p1";
     "FOOTER|J1|1"] []
  = ([mkOutFile "out1.csv"
        ["JOB|J1|x"; "META_A|y"; "CLNT_CORR|1"; "CLNT_ROLE|r1"; "PLAN|p1";
         "FOOTER|J1|1"]],
     Ok tt).
Proof.
  exact (proj2
    (programs_agree 1 "out" int_of_digits
       ["JOB|J1|x"; "META_A|y"; "CLNT_CORR|1"; "CLNT_ROLE|r1"; "PLAN|p1";
        "FOOTER|J1|1"] []
       [mkOutFile "out1.csv"
          ["JOB|J1|x"; "META_A|y"; "CLNT_CORR|1"; "CLNT_ROLE|r1"; "PLAN|p1";
           "FOOTER|J1|1"]]
       None eq_refl)
    2 "JOB|J1|x" ["META_A|y"] [["CLNT_CORR|1"; "CLNT_ROLE|r1"; "PLAN|p1"]]
    "FOOTER|J1|1" eq_refl eq_refl eq_refl).
Defined.


(** ** Reading the lines of a file *)

Lemma no_crlf_cons c l :
  no_crlf (String c l) = true
  <-> Ascii.eqb c Py.CR = false /\ Ascii.eqb c Py.LF = false
      /\ no_crlf l = true.
Proof.
  unfold no_crlf. simpl.
  destruct (Ascii.eqb c Py.CR), (Ascii.eqb c Py.LF); simpl;
    rewrite ?andb_true_iff; intuition congruence.
Qed.

Lemma contains_CRLF c :
  Py.contains CRLF c = Ascii.eqb c Py.CR || Ascii.eqb c Py.LF.
Proof.
  unfold CRLF. cbn [Py.contains].
  now rewrite (Ascii.eqb_sym Py.CR), (Ascii.eqb_sym Py.LF), orb_false_r.
Qed.

Lemma contains_LFs c : Py.contains LFs c = Ascii.eqb c Py.LF.
Proof.
  unfold LFs. cbn [Py.contains]. now rewrite (Ascii.eqb_sym Py.LF), orb_false_r.
Qed.

Lemma rstrip_cons_keep chars c l :
  Py.contains chars c = false ->
  Py.rstrip chars (String c l) = String c (Py.rstrip chars l).
Proof. intros H. simpl. rewrite H. now destruct (Py.rstrip chars l). Qed.

Lemma rstrip_cons_drop chars c l :
  Py.contains chars c = true -> Py.rstrip chars l = EmptyString ->
  Py.rstrip chars (String c l) = EmptyString.
Proof. intros H E. simpl. now rewrite E, H. Qed.

(** A line without line endings, followed by one of the line endings,
    strips to that line. *)
Lemma rstrip_line l term :
  no_crlf l = true ->
  Py.rstrip CRLF term = EmptyString ->
  Py.rstrip CRLF (l ++ term) = l.
Proof.
  intros Hl Ht. induction l as [|c l IH]; simpl append; [exact Ht|].
  apply no_crlf_cons in Hl as (Hc & Hf & Hl).
  rewrite rstrip_cons_keep, IH; auto.
  now rewrite contains_CRLF, Hc, Hf.
Qed.

Lemma rstrip_line_lf l term :
  no_crlf l = true ->
  Py.rstrip LFs term = EmptyString ->
  Py.rstrip LFs (l ++ term) = l.
Proof.
  intros Hl Ht. induction l as [|c l IH]; simpl append; [exact Ht|].
  apply no_crlf_cons in Hl as (Hc & Hf & Hl).
  rewrite rstrip_cons_keep, IH; auto.
  now rewrite contains_LFs.
Qed.

(** The lines of the text of a written file, with their line feeds. *)
Lemma lines_untranslated_line l rest :
  no_crlf l = true ->
  Py.lines_untranslated (l ++ String Py.LF rest)
  = (l ++ LFs)%string :: Py.lines_untranslated rest.
Proof.
  intros Hl. induction l as [|c l IH]; [reflexivity|].
  apply no_crlf_cons in Hl as (Hc & Hf & Hl).
  simpl. rewrite Hc, Hf. simpl in IH. now rewrite (IH Hl).
Qed.

Lemma lines_lf_line l rest :
  no_crlf l = true ->
  Py.lines_lf (l ++ String Py.LF rest) = (l ++ LFs)%string :: Py.lines_lf rest.
Proof.
  intros Hl. induction l as [|c l IH]; [reflexivity|].
  apply no_crlf_cons in Hl as (Hc & Hf & Hl).
  simpl. rewrite Hf. simpl in IH. now rewrite (IH Hl).
Qed.

Lemma translate_line l rest :
  no_crlf l = true ->
  Py.translate_newlines (l ++ String Py.LF rest)
  = (l ++ String Py.LF (Py.translate_newlines rest))%string.
Proof.
  intros Hl. induction l as [|c l IH]; [reflexivity|].
  apply no_crlf_cons in Hl as (Hc & Hf & Hl).
  simpl. rewrite Hc. simpl in IH. now rewrite (IH Hl).
Qed.

Lemma read_back_untranslated ls :
  forallb no_crlf ls = true ->
  map (Py.rstrip CRLF) (Py.lines_untranslated (file_text ls)) = ls.
Proof.
  induction ls as [|l ls IH]; [reflexivity|]. simpl.
  rewrite andb_true_iff. intros [Hl Hs].
  rewrite lines_untranslated_line by assumption. simpl.
  now rewrite rstrip_line, IH.
Qed.

Lemma read_back_translated ls :
  forallb no_crlf ls = true ->
  map (Py.rstrip LFs) (Py.lines_translated (file_text ls)) = ls.
Proof.
  unfold Py.lines_translated.
  induction ls as [|l ls IH]; [reflexivity|]. simpl.
  rewrite andb_true_iff. intros [Hl Hs].
  rewrite translate_line, lines_lf_line by assumption. simpl.
  now rewrite rstrip_line_lf, IH.
Qed.

Lemma lines_untranslated_cons c rest :
  Py.lines_untranslated (String c rest)
  = if Ascii.eqb c Py.LF then LFs :: Py.lines_untranslated rest
    else if Ascii.eqb c Py.CR then
      match rest with
      | EmptyString => [String Py.CR EmptyString]
      | String c' rest' =>
          if Ascii.eqb c' Py.LF
          then CRLF :: Py.lines_untranslated rest'
          else String Py.CR EmptyString :: Py.lines_untranslated rest
      end
    else match Py.lines_untranslated rest with
         | [] => [String c EmptyString]
         | l :: ls => String c l :: ls
         end.
Proof. reflexivity. Qed.

Lemma translate_newlines_cons c rest :
  Py.translate_newlines (String c rest)
  = if Ascii.eqb c Py.CR then
      match rest with
      | EmptyString => LFs
      | String c' rest' =>
          if Ascii.eqb c' Py.LF then String Py.LF (Py.translate_newlines rest')
          else String Py.LF (Py.translate_newlines rest)
      end
    else String c (Py.translate_newlines rest).
Proof. reflexivity. Qed.

Lemma lines_lf_cons c rest :
  Py.lines_lf (String c rest)
  = if Ascii.eqb c Py.LF then LFs :: Py.lines_lf rest
    else match Py.lines_lf rest with
         | [] => [String c EmptyString]
         | l :: ls => String c l :: ls
         end.
Proof. reflexivity. Qed.

Lemma rstrip_endings :
  Py.rstrip CRLF LFs = EmptyString
  /\ Py.rstrip CRLF (String Py.CR EmptyString) = EmptyString
  /\ Py.rstrip CRLF CRLF = EmptyString
  /\ Py.rstrip LFs LFs = EmptyString.
Proof. repeat split. Qed.

Lemma cr_is_not_lf c : Ascii.eqb c Py.CR = true -> Ascii.eqb c Py.LF = false.
Proof. intros H. apply Ascii.eqb_eq in H. now subst c. Qed.

(** The lines Split_File.py makes of a text hold no line ending. *)
Lemma stripped_lines_clean text :
  forallb no_crlf (map (Py.rstrip CRLF) (Py.lines_untranslated text)) = true.
Proof.
  destruct rstrip_endings as (E1 & E2 & E3 & _).
  induction text as [|c rest IH]; [reflexivity|].
  rewrite lines_untranslated_cons.
  destruct (Ascii.eqb c Py.LF) eqn:Hl.
  { cbn [map forallb]. now rewrite E1, IH. }
  destruct (Ascii.eqb c Py.CR) eqn:Hc.
  { destruct rest as [|c' rest']; [cbn [map forallb]; now rewrite E2|].
    destruct (Ascii.eqb c' Py.LF) eqn:Hl'.
    - rewrite lines_untranslated_cons, Hl' in IH. cbn [map forallb] in IH.
      apply andb_true_iff in IH as [_ IH].
      cbn [map forallb]. now rewrite E3, IH.
    - cbn [map forallb]. now rewrite E2, IH. }
  assert (Hk : Py.contains CRLF c = false) by now rewrite contains_CRLF, Hc, Hl.
  destruct (Py.lines_untranslated rest) as [|l ls].
  - cbn [map forallb]. rewrite rstrip_cons_keep by assumption.
    rewrite andb_true_r. apply no_crlf_cons. now repeat split.
  - cbn [map forallb] in IH |- *. apply andb_true_iff in IH as [IH1 IH2].
    rewrite rstrip_cons_keep, IH2, andb_true_r by assumption.
    apply no_crlf_cons. now repeat split.
Qed.

(** The two ways of opening the file give the same lines: line endings
    kept and stripped as "\r\n", or translated and stripped as "\n". *)
Lemma readers_agree_on_text text :
  map (Py.rstrip CRLF) (Py.lines_untranslated text)
  = map (Py.rstrip LFs) (Py.lines_translated text).
Proof.
  destruct rstrip_endings as (E1 & E2 & E3 & E4).
  unfold Py.lines_translated.
  induction text as [|c rest IH]; [reflexivity|].
  rewrite lines_untranslated_cons, translate_newlines_cons.
  destruct (Ascii.eqb c Py.LF) eqn:Hl.
  { assert (Hc : Ascii.eqb c Py.CR = false).
    { destruct (Ascii.eqb c Py.CR) eqn:Hc; [|reflexivity].
      apply cr_is_not_lf in Hc. congruence. }
    rewrite Hc, lines_lf_cons, Hl. cbn [map]. now rewrite E1, E4, IH. }
  destruct (Ascii.eqb c Py.CR) eqn:Hc.
  { destruct rest as [|c' rest'].
    - cbn [map]. now rewrite E2.
    - destruct (Ascii.eqb c' Py.LF) eqn:Hl'.
      + rewrite lines_untranslated_cons, translate_newlines_cons, Hl' in IH.
        assert (Hc' : Ascii.eqb c' Py.CR = false).
        { destruct (Ascii.eqb c' Py.CR) eqn:Hc'; [|reflexivity].
          apply cr_is_not_lf in Hc'. congruence. }
        rewrite Hc', lines_lf_cons, Hl' in IH. cbn [map] in IH.
        rewrite E1, E4 in IH. injection IH as IH.
        rewrite lines_lf_cons, Ascii.eqb_refl. cbn [map].
        now rewrite E3, E4, IH.
      + rewrite lines_lf_cons, Ascii.eqb_refl. cbn [map].
        now rewrite E2, E4, IH. }
  rewrite lines_lf_cons, Hl.
  assert (Hk : Py.contains CRLF c = false) by now rewrite contains_CRLF, Hc, Hl.
  assert (Hk' : Py.contains LFs c = false) by now rewrite contains_LFs.
  destruct (Py.lines_untranslated rest) as [|l ls],
    (Py.lines_lf (Py.translate_newlines rest)) as [|l' ls'];
    cbn [map] in IH |- *; try discriminate.
  - now rewrite !rstrip_cons_keep by assumption.
  - injection IH as IH1 IH2.
    now rewrite !rstrip_cons_keep, IH1, IH2 by assumption.
Qed.

(** X19.  What [read_lines] of Split_File.py returns: the lines of the
    text under the first of utf-8, utf-8-sig, cp1252 and latin-1 that
    decodes the file, that is, under an encoding of this list such that
    every encoding before it in the list fails, each line without its line
    ending and none holding a carriage return or a line feed, and no
    warning; the fallback, with its warning, is taken only when all four
    fail. *)
Theorem read_lines_outcome
    (decode : string -> string -> option string)
    (decode_replace : string -> string) (splitlines : string -> list string)
    (raw : string) :
  (exists earlier enc later text,
     ["utf-8"; "utf-8-sig"; "cp1252"; "latin-1"] = earlier ++ enc :: later
     /\ Forall (fun e => decode e raw = None) earlier
     /\ decode enc raw = Some text
     /\ Split_File.read_lines decode decode_replace splitlines raw
        = (map (Py.rstrip CRLF) (Py.lines_untranslated text), false)
     /\ forallb no_crlf
          (fst (Split_File.read_lines decode decode_replace splitlines raw))
        = true)
  \/ (Forall (fun e => decode e raw = None)
             ["utf-8"; "utf-8-sig"; "cp1252"; "latin-1"]
      /\ Split_File.read_lines decode decode_replace splitlines raw
         = (splitlines (decode_replace raw), true)).
Proof.
  unfold Split_File.read_lines, Split_File.try_encodings. fold CRLF.
  destruct (decode "utf-8" raw) as [t|] eqn:E1.
  { left. exists [], "utf-8", ["utf-8-sig"; "cp1252"; "latin-1"], t.
    simpl. rewrite stripped_lines_clean. auto 10. }
  destruct (decode "utf-8-sig" raw) as [t|] eqn:E2.
  { left. exists ["utf-8"], "utf-8-sig", ["cp1252"; "latin-1"], t.
    simpl. rewrite stripped_lines_clean. auto 10. }
  destruct (decode "cp1252" raw) as [t|] eqn:E3.
  { left. exists ["utf-8"; "utf-8-sig"], "cp1252", ["latin-1"], t.
    simpl. rewrite stripped_lines_clean. auto 10. }
  destruct (decode "latin-1" raw) as [t|] eqn:E4.
  { left. exists ["utf-8"; "utf-8-sig"; "cp1252"], "latin-1", [], t.
    simpl. rewrite stripped_lines_clean. auto 10. }
  right. split; [|reflexivity]. repeat constructor; assumption.
Qed.

(** X20.  What the writer writes, the readers read back: when the bytes
    of a file decode, as UTF-8, to the text of lines written each with a
    line feed, and no line holds a carriage return or a line feed, both
    [read_lines] return these lines, Split_File.py without a warning. *)
Theorem written_file_reads_back
    (decode : string -> string -> option string)
    (decode_replace : string -> string) (splitlines : string -> list string)
    (raw : string) (ls : list string) :
  forallb no_crlf ls = true ->
  decode "utf-8" raw = Some (file_text ls) ->
  Split_File.read_lines decode decode_replace splitlines raw = (ls, false)
  /\ Split_xpnfile.read_lines (decode "utf-8") raw = Some ls.
Proof.
  intros Hl Hd.
  unfold Split_File.read_lines, Split_File.try_encodings,
    Split_xpnfile.read_lines.
  fold CRLF. fold LFs. rewrite Hd.
  now rewrite read_back_untranslated, read_back_translated.
Qed.

Lemma written_file_reads_back_witness :
  forallb no_crlf ["JOB|J1|x"; "META_A|y"; "FOOTER|J1|0"] = true
  /\ Split_File.read_lines (fun _ raw => Some raw) (fun raw => raw)
       (fun _ => []) (file_text ["JOB|J1|x"; "META_A|y"; "FOOTER|J1|0"])
     = (["JOB|J1|x"; "META_A|y"; "FOOTER|J1|0"], false)
  /\ Split_xpnfile.read_lines ((fun _ raw => Some raw) "utf-8")
       (file_text ["JOB|J1|x"; "META_A|y"; "FOOTER|J1|0"])
     = Some ["JOB|J1|x"; "META_A|y"; "FOOTER|J1|0"].
Proof.
  split; [reflexivity|].
  exact (written_file_reads_back (fun _ raw => Some raw) (fun raw => raw)
           (fun _ => []) (file_text ["JOB|J1|x"; "META_A|y"; "FOOTER|J1|0"])
           ["JOB|J1|x"; "META_A|y"; "FOOTER|J1|0"] eq_refl eq_refl).
Defined.

(** X21.  The two [read_lines] return the same lines of a file that
    decodes as UTF-8, whatever its line endings are: Split_File.py keeps
    the endings and strips "\r\n", the sibling lets the file translate
    them and strips "\n". *)
Theorem readers_agree
    (decode : string -> string -> option string)
    (decode_replace : string -> string) (splitlines : string -> list string)
    (raw text : string) :
  decode "utf-8" raw = Some text ->
  Split_xpnfile.read_lines (decode "utf-8") raw
  = Some (fst (Split_File.read_lines decode decode_replace splitlines raw))
  /\ forallb no_crlf
       (fst (Split_File.read_lines decode decode_replace splitlines raw))
     = true.
Proof.
  intros Hd.
  unfold Split_File.read_lines, Split_File.try_encodings,
    Split_xpnfile.read_lines.
  fold CRLF. fold LFs. rewrite Hd. simpl fst.
  now rewrite readers_agree_on_text, <- readers_agree_on_text,
    stripped_lines_clean.
Qed.

Lemma readers_agree_witness :
  Split_xpnfile.read_lines ((fun _ raw => Some raw) "utf-8")
    (String "a" (String Py.CR (String Py.LF (String "b" (String Py.CR
       (String "c" (String Py.LF EmptyString)))))))
  = Some (fst (Split_File.read_lines (fun _ raw => Some raw) (fun raw => raw)
                 (fun _ => [])
                 (String "a" (String Py.CR (String Py.LF (String "b"
                    (String Py.CR (String "c" (String Py.LF EmptyString)))))))))
  /\ forallb no_crlf
       (fst (Split_File.read_lines (fun _ raw => Some raw) (fun raw => raw)
               (fun _ => [])
               (String "a" (String Py.CR (String Py.LF (String "b"
                  (String Py.CR (String "c" (String Py.LF EmptyString)))))))))
     = true.
Proof.
  exact (readers_agree (fun _ raw => Some raw) (fun raw => raw) (fun _ => [])
           (String "a" (String Py.CR (String Py.LF (String "b" (String Py.CR
              (String "c" (String Py.LF EmptyString)))))))
           _ eq_refl).
Defined.


(** ** The item policies of the two programs, side by side *)


(** ** The footer check, which only Split_File.py makes *)

Lemma sibling_main_errors ITEMS prefix lines fs e :
  snd (Split_xpnfile.main ITEMS prefix lines fs) = Err e ->
  e = IndexError \/ e = MalformedHeader \/ e = MissingFooter
  \/ (exists n, e = ExpectedCorrAt n) \/ (exists n, e = ExpectedRoleAt n)
  \/ (exists n, e = ExpectedPlanAt n) \/ e = RangeStepZero.
Proof.
  unfold Split_xpnfile.main.
  destruct (Split_xpnfile.parse_header_and_meta lines) as [[[job metas] idx]|e0] eqn:Hh;
    cbv beta iota delta [bind].
  2:{ simpl. intros [= <-]. destruct lines as [|j rest].
      - injection Hh as <-. now left.
      - destruct (is_header j) eqn:Hj.
        + now rewrite sibling_parse_header_and_meta_run in Hh.
        + revert Hh. unfold Split_xpnfile.parse_header_and_meta.
          change (Py.getitem (j :: rest) 0) with (Ok j).
          cbv beta iota delta [bind].
          change (Py.startswith j "JOB|") with (is_header j). rewrite Hj.
          simpl negb. cbv iota. intros [= <-]. right; now left. }
  destruct (Split_xpnfile.parse_groups_and_footer lines idx) as [[groups footer]|e0] eqn:Hg;
    cbv beta iota.
  2:{ simpl. intros [= <-]. apply sibling_parse_reads in Hg.
      remember (skipn idx lines) as suf eqn:Hs.
      remember (Err e0) as res eqn:Hr.
      destruct Hg; try discriminate; injection Hr as <-; eauto 10. }
  destruct (Split_xpnfile.extract_job_code job) as [code|e0] eqn:Hc.
  2:{ simpl. intros [= <-]. revert Hc.
      unfold Split_xpnfile.extract_job_code, Py.getitem.
      destruct (nth_error (Py.split pipe job) 1); [discriminate|].
      intros [= <-]. now left. }
  unfold Split_xpnfile.write_batches, Py.range.
  destruct (Py.range_len 0 (Z.of_nat (length groups)) ITEMS); simpl;
    [discriminate | intros [= <-]; auto 10].
Qed.

(** C7.  A well-formed file whose footer carries another job code than
    its header: the sibling writes its items, under a footer with the job
    code of the header, and ends without an error, where Split_File.py
    fails with FooterJobMismatch and writes nothing.  Split_File.py does so
    on every input that parses and whose footer line of three fields
    carries another job code than the header, and never fails in this way
    when the two job codes are equal; the sibling never fails in this way
    at all. *)
Theorem sibling_main_skips_footer_validation :
  Split_xpnfile.main 2 "output_file"
    ["JOB|J1|x"; "META_A|y"; "CLNT_CORR|1"; "CLNT_ROLE|r1"; "PLAN|p1";
     "FOOTER|J2|1"] []
  = ([mkOutFile "output_file1.csv"
        ["JOB|J1|x"; "META_A|y"; "CLNT_CORR|1"; "CLNT_ROLE|r1"; "PLAN|p1";
         "FOOTER|J1|1"]],
     Ok tt)
  /\ Split_File.main 2 "output_file" int_of_digits
       ["JOB|J1|x"; "META_A|y"; "CLNT_CORR|1"; "CLNT_ROLE|r1"; "PLAN|p1";
        "FOOTER|J2|1"] []
     = ([], Err (FooterJobMismatch "J2" "J1"))
  /\ (forall ITEMS prefix py_int lines fs job metas idx groups footer_line
             tag a count_str b,
        Split_File.parse_header_and_meta lines = Ok (job, metas, idx) ->
        Split_File.parse_groups_and_footer lines idx = Ok (groups, footer_line) ->
        Split_File.extract_job_code job = Ok b ->
        Py.split pipe footer_line = [tag; a; count_str] ->
        (a <> b ->
         Split_File.main ITEMS prefix py_int lines fs
         = (fs, Err (FooterJobMismatch a b)))
        /\ (a = b ->
            forall x y,
              snd (Split_File.main ITEMS prefix py_int lines fs)
              <> Err (FooterJobMismatch x y)))
  /\ (forall ITEMS prefix lines fs a b,
        snd (Split_xpnfile.main ITEMS prefix lines fs)
        <> Err (FooterJobMismatch a b)).
Proof.
  split; [reflexivity|]. split; [reflexivity|]. split.
  - intros ITEMS prefix py_int lines fs job metas idx groups footer tag a cnt b
      Hh Hg Hc Hs.
    unfold Split_File.main. rewrite Hh. cbv beta iota delta [bind].
    rewrite Hg. cbv beta iota. rewrite Hc. split.
    + intros Hn.
      assert (Hv : Split_File.validate_footer py_int footer b (length groups)
                   = Err (FooterJobMismatch a b)).
      { apply validate_footer_mismatch. now exists tag, cnt. }
      now rewrite Hv.
    + intros <- x y.
      destruct (Split_File.validate_footer py_int footer a (length groups))
        as [w|e] eqn:Hv.
      * destruct (write_batches_outcome prefix job metas groups ITEMS a fs) as [E|E];
          destruct (Split_File.write_batches prefix job metas groups ITEMS a fs)
            as [fs' [u|e]]; simpl in *; congruence.
      * simpl. intros [= ->].
        apply validate_footer_mismatch in Hv as (tag' & cnt' & Hs' & Hn & _).
        rewrite Hs in Hs'. injection Hs' as _ <- _. now elim Hn.
  - intros ITEMS prefix lines fs a b H.
    destruct (sibling_main_errors _ _ _ _ _ H)
      as [E|[E|[E|[(n & E)|[(n & E)|[(n & E)|E]]]]]]; discriminate.
Qed.
